(** * Style transfer between word-processing documents (format.py)

    A shallow embedding of [extract_formatting_from_docx] and
    [apply_formatting_to_docx], and the properties of the style-transfer
    engine proved over it.

    Conventions of the embedding:
    - a Python [str] is a [string]; a character is a code point below 256,
      with Python's own notion of white space and of lower case there;
    - a Python [float] (inches, points) is an exact rational [Q]; rounding is
      outside the model, only presence, zero-ness and truncation are used;
    - a [Length] of the document library is an integer number of EMU;
    - the dictionaries built by the extractor are records, a missing key or a
      [None] value is [None];
    - the document library (python-docx) is seen through the object model the
      program uses: paragraphs, runs, tables, sections and named styles; its
      setters store what the document format can hold (whole twips, half
      points) and raise on what it cannot;
    - a Python function returns a value or raises: [outcome]. *)

From Stdlib Require Import List ZArith QArith Bool Ascii String Lia.
From Stdlib Require Import DecimalString.
Import ListNotations.

Local Open Scope string_scope.
Local Open Scope Z_scope.
Local Open Scope list_scope.

(** ** Exceptions *)

(** What a call does: it returns a value, or it raises an exception, kept
    as the text [str(e)] gives. *)
Inductive outcome (A : Type) : Type :=
| Returns (a : A)
| Raises (message : string).

Arguments Returns {A} a.
Arguments Raises {A} message.

Definition bind {A B : Type} (x : outcome A) (f : A -> outcome B)
  : outcome B :=
  match x with
  | Returns a => f a
  | Raises message => Raises message
  end.

Notation "x <- e ;; k" := (bind e (fun x => k))
  (at level 61, e at next level, right associativity).

Definition fmap {A B : Type} (f : A -> B) (x : outcome A) : outcome B :=
  a <- x ;; Returns (f a).

(** A loop whose body may raise: the first exception ends it. *)
Fixpoint for_each {A B : Type} (f : A -> outcome B) (l : list A)
  : outcome (list B) :=
  match l with
  | [] => Returns []
  | a :: rest => b <- f a ;; bs <- for_each f rest ;; Returns (b :: bs)
  end.

(** ** Python string built-ins used by the program *)

Module PyStr.

Definition nl : string := String (ascii_of_nat 10) "".

(** [str.isspace] on one character (code points below 256). *)
Definition isspace (c : ascii) : bool :=
  let n := nat_of_ascii c in
  ((9 <=? n) && (n <=? 13) || (28 <=? n) && (n <=? 32)
   || (n =? 133) || (n =? 160))%nat.

Fixpoint lstrip (s : string) : string :=
  match s with
  | EmptyString => EmptyString
  | String c t => if isspace c then lstrip t else s
  end.

Fixpoint rstrip (s : string) : string :=
  match s with
  | EmptyString => EmptyString
  | String c t =>
      match rstrip t with
      | EmptyString => if isspace c then EmptyString else String c EmptyString
      | t' => String c t'
      end
  end.

(** [s.strip()] *)
Definition strip (s : string) : string := rstrip (lstrip s).

(** Truth value of a string: non-empty. *)
Definition truthy (s : string) : bool :=
  match s with EmptyString => false | String _ _ => true end.

Definition lower_char (c : ascii) : ascii :=
  let n := nat_of_ascii c in
  if ((65 <=? n) && (n <=? 90) || (192 <=? n) && (n <=? 214)
      || (216 <=? n) && (n <=? 222))%nat
  then ascii_of_nat (n + 32) else c.

(** [s.lower()] *)
Fixpoint lower (s : string) : string :=
  match s with
  | EmptyString => EmptyString
  | String c t => String (lower_char c) (lower t)
  end.

(** [needle in hay] *)
Fixpoint contains (needle hay : string) : bool :=
  String.prefix needle hay ||
  match hay with
  | EmptyString => false
  | String _ t => contains needle t
  end.

(** [s.split("\n")] *)
Fixpoint split_lines (s : string) : list string :=
  match s with
  | EmptyString => [EmptyString]
  | String c t =>
      if Ascii.eqb c (ascii_of_nat 10) then EmptyString :: split_lines t
      else match split_lines t with
           | l :: ls => String c l :: ls
           | [] => [String c EmptyString]
           end
  end.

(** [s[:n]] *)
Definition take (n : nat) (s : string) : string := String.substring 0 n s.

End PyStr.

(** ** The object model of the document library *)

Module Docx.

Inductive WD_ALIGN_PARAGRAPH :=
| LEFT | CENTER | RIGHT | JUSTIFY | DISTRIBUTE.

Inductive WD_CELL_VERTICAL_ALIGNMENT :=
| TOP | VCENTER | BOTTOM | BOTH.

Inductive WD_STYLE_TYPE :=
| PARAGRAPH | CHARACTER | TABLE | LIST.

Record RGBColor := { red : N; green : N; blue : N }.

(** Lengths are EMU; [Length.inches], [Length.pt], [Inches(x)], [Pt(x)]. *)
Definition EMUS_PER_INCH : Z := 914400.
Definition EMUS_PER_PT : Z := 12700.

Definition inches (emu : Z) : Q := Qmake emu 914400.
Definition pt (emu : Z) : Q := Qmake emu 12700.

(** Python's [int(x)] on a float: truncation towards zero. *)
Definition int_of (x : Q) : Z := Z.quot (Qnum x) (Zpos (Qden x)).

Definition Inches (x : Q) : Z := int_of (x * inject_Z EMUS_PER_INCH).
Definition Pt (x : Q) : Z := int_of (x * inject_Z EMUS_PER_PT).

(** [Length.twips]: the nearest whole number of twips, of 635 EMU each. *)
Definition twips (emu : Z) : Z := (2 * emu + 635) / 1270.

(** The range check of the integer types of the document format, with the
    message of its [ValueError]. *)
Definition format_int (z : Z) : string :=
  NilEmpty.string_of_int (Z.to_int z).

Definition validate_int_in_range (value lo hi : Z) : outcome Z :=
  if (lo <=? value) && (value <=? hi) then Returns value
  else Raises ("value must be in range " ++ format_int lo ++ " to "
               ++ format_int hi ++ " inclusive, got " ++ format_int value)
              %string.

(** What a section holds after [section.top_margin = length] (and
    [bottom_margin]): a signed 32-bit measure, kept in whole twips. *)
Definition store_signed_twips (length : Z) : outcome Z :=
  v <- validate_int_in_range length (-2147483648) 2147483647 ;;
  Returns (635 * twips v).

(** What a section holds after [section.left_margin = length] (and
    [right_margin]): an unsigned measure, kept in whole twips. *)
Definition store_twips (length : Z) : outcome Z :=
  v <- validate_int_in_range length 0 18446744073709551615 ;;
  Returns (635 * twips v).

(** What a run holds after [run.font.size = length]: an unsigned measure,
    kept in whole half points of 6350 EMU each, rounded down. *)
Definition store_half_points (length : Z) : outcome Z :=
  v <- validate_int_in_range length 0 18446744073709551615 ;;
  Returns (6350 * (v / 6350)).

Record Run := {
  run_text : string;
  run_bold : option bool;
  run_italic : option bool;
  run_underline : option bool;
  run_font_name : option string;
  run_font_size : option Z;
  run_font_color : option RGBColor
}.

(** [para_style] is the name of the style [para.style] returns, if any. *)
Record Paragraph := {
  para_style : option string;
  para_alignment : option WD_ALIGN_PARAGRAPH;
  para_runs : list Run
}.

(** [para.text]: the text of the runs, concatenated. *)
Definition para_text (p : Paragraph) : string :=
  String.concat "" (map run_text (para_runs p)).

Record Cell := {
  cell_text : string;
  cell_vertical_alignment : option WD_CELL_VERTICAL_ALIGNMENT
}.

Record Table := {
  table_rows : list (list Cell);
  table_columns : nat
}.

(** The program reads the four margins of a section as lengths. *)
Record Section_ := {
  top_margin : Z;
  bottom_margin : Z;
  left_margin : Z;
  right_margin : Z
}.

Record Style := {
  s_name : string;
  style_font_name : option string;
  style_font_size : option Z;
  s_type : WD_STYLE_TYPE
}.

Record Document := {
  doc_paragraphs : list Paragraph;
  doc_tables : list Table;
  doc_sections : list Section_;
  doc_styles : list Style
}.

(** [name in doc.styles] *)
Definition has_style (name : string) (styles : list Style) : bool :=
  existsb (fun s => String.eqb (s_name s) name) styles.

(** [doc.styles[name]] *)
Definition get_style (name : string) (styles : list Style) : option Style :=
  find (fun s => String.eqb (s_name s) name) styles.

Definition style_type_name (t : WD_STYLE_TYPE) : string :=
  match t with
  | PARAGRAPH => "PARAGRAPH (1)"
  | CHARACTER => "CHARACTER (2)"
  | TABLE => "TABLE (3)"
  | LIST => "LIST (4)"
  end.

(** [p.style = name]: the style the paragraph holds afterwards. The
    assignment raises when the document has no style of that name, and when
    the style of that name is not a paragraph style. *)
Definition assign_style (name : string) (styles : list Style)
  : outcome (option string) :=
  match get_style name styles with
  | Some style =>
      match s_type style with
      | PARAGRAPH => Returns (Some name)
      | t => Raises ("assigned style is type " ++ style_type_name t
                     ++ ", need type PARAGRAPH (1)")%string
      end
  | None => Raises ("no style with name '" ++ name ++ "'")%string
  end.

(** The colour of a [w:color] element as the library creates it. *)
Definition black : RGBColor := {| red := 0; green := 0; blue := 0 |}.

(** A run as [p.add_run(text)] creates it: nothing set but the text. *)
Definition add_run (text : string) : Run :=
  {| run_text := text; run_bold := None; run_italic := None;
     run_underline := None; run_font_name := None; run_font_size := None;
     run_font_color := None |}.

End Docx.

Import PyStr Docx.

(** ** The formatting dictionary built by the extractor *)

(** The value stored under ["color"]: what the extractor stores is an
    [RGBColor]; the colour setter of the document library refuses any other
    value. *)
Inductive color_value :=
| ColorRGB (c : RGBColor)
| ColorOther (repr : string).

Record RunProps := {
  rp_text : string;
  bold : option bool;
  italic : option bool;
  underline : option bool;
  font_name : option string;
  font_size : option Q;
  color : option color_value
}.

Record StyleInfo := {
  si_text : string;
  alignment : option WD_ALIGN_PARAGRAPH;
  style_name : option string;
  font_properties : list RunProps
}.

Record CellInfo := {
  ci_text : string;
  vertical_alignment : option WD_CELL_VERTICAL_ALIGNMENT
}.

Record TableInfo := {
  rows : nat;
  cols : nat;
  cell_styles : list CellInfo
}.

Record Margins := {
  m_top : option Q;
  m_bottom : option Q;
  m_left : option Q;
  m_right : option Q
}.

Record OverallStyle := {
  default_font : option string;
  default_font_size : option Q;
  margins : option Margins
}.

Record Formatting := {
  paragraphs : list StyleInfo;
  headings : list StyleInfo;
  tables : list TableInfo;
  overall_style : OverallStyle
}.

(** ** extract_formatting_from_docx *)

Definition non_blank (s : string) : bool := truthy (strip s).

Definition run_props (run : Run) : RunProps :=
  {| rp_text := run_text run;
     bold := run_bold run;
     italic := run_italic run;
     underline := run_underline run;
     font_name := run_font_name run;
     font_size := match run_font_size run with
                  | Some sz => if sz =? 0 then None else Some (pt sz)
                  | None => None
                  end;
     color := match run_font_color run with
              | Some rgb => Some (ColorRGB rgb)
              | None => None
              end |}.

Definition style_info (para : Paragraph) : StyleInfo :=
  {| si_text := para_text para;
     alignment := para_alignment para;
     style_name := Some (match para_style para with
                         | Some name => name
                         | None => "Normal"
                         end);
     font_properties :=
       map run_props (filter (fun run => non_blank (run_text run))
                             (para_runs para)) |}.

(** [para.style and "Heading" in para.style.name] *)
Definition is_heading_style (para : Paragraph) : bool :=
  match para_style para with
  | Some name => contains "Heading" name
  | None => false
  end.

(** One iteration of the paragraph loop; the state is the pair of lists
    [formatting["paragraphs"]], [formatting["headings"]]. *)
Definition extract_paragraph
    (acc : list StyleInfo * list StyleInfo) (para : Paragraph)
  : list StyleInfo * list StyleInfo :=
  if non_blank (para_text para) then
    if is_heading_style para
    then (fst acc, snd acc ++ [style_info para])
    else (fst acc ++ [style_info para], snd acc)
  else acc.

Definition cell_info (cell : Cell) : CellInfo :=
  {| ci_text := cell_text cell;
     vertical_alignment := cell_vertical_alignment cell |}.

Definition table_info (table : Table) : TableInfo :=
  {| rows := List.length (table_rows table);
     cols := table_columns table;
     cell_styles := flat_map (map cell_info) (table_rows table) |}.

Definition extract_overall_style (doc : Document) : OverallStyle :=
  {| default_font :=
       match get_style "Normal" (doc_styles doc) with
       | Some normal => style_font_name normal
       | None => None
       end;
     default_font_size :=
       match get_style "Normal" (doc_styles doc) with
       | Some normal =>
           match style_font_size normal with
           | Some sz => if sz =? 0 then None else Some (pt sz)
           | None => None
           end
       | None => None
       end;
     margins :=
       Some {| m_top := match doc_sections doc with
                        | s :: _ => Some (inches (top_margin s))
                        | [] => None
                        end;
               m_bottom := match doc_sections doc with
                           | s :: _ => Some (inches (bottom_margin s))
                           | [] => None
                           end;
               m_left := match doc_sections doc with
                         | s :: _ => Some (inches (left_margin s))
                         | [] => None
                         end;
               m_right := match doc_sections doc with
                          | s :: _ => Some (inches (right_margin s))
                          | [] => None
                          end |} |}.

Definition extract_formatting_from_docx (doc : Document) : Formatting :=
  let acc := fold_left extract_paragraph (doc_paragraphs doc) ([], []) in
  {| paragraphs := fst acc;
     headings := snd acc;
     tables := map table_info (doc_tables doc);
     overall_style := extract_overall_style doc |}.

(** ** apply_formatting_to_docx *)

(** The items of [content] and of [classified_paragraphs]. *)
Record Item := { type : string; text : string }.

(** What [openai_client.chat.completions.create] does with the messages it is
    given: it returns the content of the first choice, or raises. *)
Inductive completion :=
| Content (classifications : string)
| APIError (message : string).

Definition OpenAI := list (string * string) -> completion.

(** Truth value of a float. *)
Definition float_truthy (x : Q) : bool := negb (Qnum x =? 0).

(** Truth value of the object stored under ["color"]. *)
Definition color_truthy (v : color_value) : bool :=
  match v with
  | ColorRGB _ => true
  | ColorOther repr => truthy repr
  end.

Definition set_bold (b : option bool) (run : Run) : Run :=
  {| run_text := run_text run; run_bold := b; run_italic := run_italic run;
     run_underline := run_underline run; run_font_name := run_font_name run;
     run_font_size := run_font_size run;
     run_font_color := run_font_color run |}.

Definition set_italic (b : option bool) (run : Run) : Run :=
  {| run_text := run_text run; run_bold := run_bold run; run_italic := b;
     run_underline := run_underline run; run_font_name := run_font_name run;
     run_font_size := run_font_size run;
     run_font_color := run_font_color run |}.

Definition set_font_name (name : option string) (run : Run) : Run :=
  {| run_text := run_text run; run_bold := run_bold run;
     run_italic := run_italic run; run_underline := run_underline run;
     run_font_name := name; run_font_size := run_font_size run;
     run_font_color := run_font_color run |}.

Definition set_font_size (size : option Z) (run : Run) : Run :=
  {| run_text := run_text run; run_bold := run_bold run;
     run_italic := run_italic run; run_underline := run_underline run;
     run_font_name := run_font_name run; run_font_size := size;
     run_font_color := run_font_color run |}.

Definition set_font_color (rgb : option RGBColor) (run : Run) : Run :=
  {| run_text := run_text run; run_bold := run_bold run;
     run_italic := run_italic run; run_underline := run_underline run;
     run_font_name := run_font_name run; run_font_size := run_font_size run;
     run_font_color := rgb |}.

(** [run.font.size = length] *)
Definition assign_font_size (length : Z) (run : Run) : outcome Run :=
  stored <- store_half_points length ;;
  Returns (set_font_size (Some stored) run).

(** [run.font.color.rgb = value]: the run afterwards, and the message of the
    exception if the assignment raised. The library first puts a colour
    element, which is black, on the run and then checks the value: a value
    that is not an [RGBColor] raises and leaves the run black. *)
Definition set_color_rgb (value : color_value) (run : Run)
  : Run * option string :=
  match value with
  | ColorRGB rgb => (set_font_color (Some rgb) run, None)
  | ColorOther repr =>
      (set_font_color (Some black) run,
       Some ("rgb color value must be RGBColor object, got " ++ repr)%string)
  end.

(** The block "Apply character formatting from reference", the same text in
    the heading and in the body branch. *)
Definition apply_font_props (font_props : RunProps) (run : Run)
  : outcome Run :=
  let run := match bold font_props with
             | Some b => set_bold (Some b) run
             | None => run
             end in
  let run := match italic font_props with
             | Some b => set_italic (Some b) run
             | None => run
             end in
  let run := match font_name font_props with
             | Some name => if truthy name then set_font_name (Some name) run
                            else run
             | None => run
             end in
  run <- match font_size font_props with
         | Some size => if float_truthy size
                        then assign_font_size (Pt size) run
                        else Returns run
         | None => Returns run
         end ;;
  Returns
    match color font_props with
    | Some value =>
        if color_truthy value
        then fst (set_color_rgb value run)     (* try ... except: pass *)
        else run
    | None => run
    end.

Definition apply_first_font_props (ref : StyleInfo) (run : Run)
  : outcome Run :=
  match font_properties ref with
  | font_props :: _ => apply_font_props font_props run
  | [] => Returns run
  end.

(** [ref.get("style_name") and ref["style_name"] in new_doc.styles] *)
Definition style_available (ref : StyleInfo) (doc : Document) : bool :=
  match style_name ref with
  | Some name => truthy name && has_style name (doc_styles doc)
  | None => false
  end.

(** [try: p.style = "Heading 1"] and its handler, which makes the run bold
    and 16 points large: the style of the paragraph and the run. *)
Definition heading_1_or_bold (doc : Document) (run : Run)
  : outcome (option string * Run) :=
  match assign_style "Heading 1" (doc_styles doc) with
  | Returns style => Returns (style, run)
  | Raises _ =>
      run <- assign_font_size (Pt (inject_Z 16)) (set_bold (Some true) run) ;;
      Returns (None, run)
  end.

(** The heading branch with a reference heading. *)
Definition heading_from_reference
    (doc : Document) (ref_heading : StyleInfo) (txt : string)
  : outcome Paragraph :=
  let run := add_run txt in
  let p_alignment := match alignment ref_heading with
                     | Some a => Some a
                     | None => None
                     end in
  styled <-
    (if style_available ref_heading doc
     then
       style <- assign_style
                  (match style_name ref_heading with
                   | Some name => name
                   | None => ""
                   end) (doc_styles doc) ;;
       Returns (style, run)
     else heading_1_or_bold doc run) ;;
  run <- apply_first_font_props ref_heading (snd styled) ;;
  Returns {| para_style := fst styled; para_alignment := p_alignment;
             para_runs := [run] |}.

(** The heading branch without any reference heading. *)
Definition heading_default (doc : Document) (txt : string)
  : outcome Paragraph :=
  let run := set_bold (Some true) (add_run txt) in
  match assign_style "Heading 1" (doc_styles doc) with
  | Returns style =>
      Returns {| para_style := style; para_alignment := None;
                 para_runs := [run] |}
  | Raises _ =>
      run <- assign_font_size (Pt (inject_Z 16)) run ;;
      Returns {| para_style := None; para_alignment := None;
                 para_runs := [run] |}
  end.

(** The body branch with a reference paragraph. *)
Definition body_from_reference
    (ref_para : StyleInfo) (txt : string) : outcome Paragraph :=
  let run := add_run txt in
  let p_alignment := match alignment ref_para with
                     | Some a => Some a
                     | None => None
                     end in
  run <- apply_first_font_props ref_para run ;;
  Returns {| para_style := None; para_alignment := p_alignment;
             para_runs := [run] |}.

(** [new_doc.add_paragraph(text)] *)
Definition body_default (txt : string) : Paragraph :=
  {| para_style := None; para_alignment := None;
     para_runs := if truthy txt then [add_run txt] else [] |}.

Definition format_item
    (formatting_info : Formatting) (doc : Document) (item : Item)
  : outcome Paragraph :=
  if String.eqb (type item) "heading" then
    match headings formatting_info with
    | ref_heading :: _ => heading_from_reference doc ref_heading (text item)
    | [] => heading_default doc (text item)
    end
  else
    match paragraphs formatting_info with
    | ref_para :: _ => body_from_reference ref_para (text item)
    | [] => Returns (body_default (text item))
    end.

Definition add_paragraph (doc : Document) (p : Paragraph) : Document :=
  {| doc_paragraphs := doc_paragraphs doc ++ [p];
     doc_tables := doc_tables doc;
     doc_sections := doc_sections doc;
     doc_styles := doc_styles doc |}.

(** One iteration of the loop over [classified_paragraphs]. *)
Definition append_formatted
    (formatting_info : Formatting) (doc : Document) (item : Item)
  : outcome Document :=
  p <- format_item formatting_info doc item ;;
  Returns (add_paragraph doc p).

(** The loop over [classified_paragraphs]: an exception ends it. *)
Fixpoint append_all
    (formatting_info : Formatting) (items : list Item) (doc : Document)
  : outcome Document :=
  match items with
  | [] => Returns doc
  | item :: rest =>
      doc <- append_formatted formatting_info doc item ;;
      append_all formatting_info rest doc
  end.

(** The margins of one section of the new document, set in the order top,
    bottom, left, right. *)
Definition set_margins (m : Margins) (section : Section_)
  : outcome Section_ :=
  let pick (store : Z -> outcome Z) (v : option Q) (old : Z) : outcome Z :=
    match v with
    | Some x => if float_truthy x then store (Inches x) else Returns old
    | None => Returns old
    end in
  top <- pick store_signed_twips (m_top m) (top_margin section) ;;
  bottom <- pick store_signed_twips (m_bottom m) (bottom_margin section) ;;
  left <- pick store_twips (m_left m) (left_margin section) ;;
  right <- pick store_twips (m_right m) (right_margin section) ;;
  Returns {| top_margin := top; bottom_margin := bottom;
             left_margin := left; right_margin := right |}.

Definition set_document_properties
    (overall : OverallStyle) (doc : Document) : outcome Document :=
  match margins overall with
  | Some m =>
      sections <- for_each (set_margins m) (doc_sections doc) ;;
      Returns {| doc_paragraphs := doc_paragraphs doc;
                 doc_tables := doc_tables doc;
                 doc_sections := sections;
                 doc_styles := doc_styles doc |}
  | None => Returns doc
  end.

Definition prompt_header : string :=
  (nl ++ "    Analyze the following document content and classify each paragraph as either 'heading' or 'body':"
      ++ nl ++ "    " ++ nl ++ "    ")%string.

Definition build_prompt (content : list Item) : string :=
  fold_left (fun prompt item =>
               (prompt ++ nl ++ "Text: " ++ text item ++ nl)%string)
            content prompt_header.

Definition messages (prompt : string) : list (string * string) :=
  [("system",
    "You are a document formatting assistant. Classify each paragraph as 'heading' or 'body' based on its content and context.");
   ("user", prompt)].

Definition heading_or_body (line : string) : string :=
  if contains "heading" (lower line) then "heading" else "body".

(** The inner loop: the first line that contains the lowered prefix
    decides. *)
Fixpoint match_line (needle : string) (lines : list string)
  : option string :=
  match lines with
  | [] => None
  | line :: rest =>
      if contains needle (lower line) then Some (heading_or_body line)
      else match_line needle rest
  end.

Definition classify (lines : list string) (i : nat) (item : Item) : Item :=
  let classification := match_line (lower (take 20 (text item))) lines in
  let classification :=
    match classification with
    | None => if (i <? List.length lines)%nat
              then Some (heading_or_body (nth i lines ""))
              else None
    | Some c => Some c
    end in
  let classification :=
    match classification with
    | None => "body"
    | Some c => c
    end in
  {| type := classification; text := text item |}.

(** [for i, item in enumerate(content)] *)
Fixpoint classify_from (lines : list string) (i : nat) (content : list Item)
  : list Item :=
  match content with
  | [] => []
  | item :: rest => classify lines i item :: classify_from lines (S i) rest
  end.

Definition classify_paragraphs (classifications : string)
    (content : list Item) : list Item :=
  classify_from (split_lines (lower classifications)) 0 content.

(** The blocks of the target document: its non-blank paragraphs. *)
Definition target_content (target_doc : Document) : list Item :=
  map (fun para => {| type := "paragraph"; text := para_text para |})
      (filter (fun para => non_blank (para_text para))
              (doc_paragraphs target_doc)).

(** [st.error(f"Error using OpenAI API: {str(e)}")] *)
Definition openai_error (e : string) : string :=
  ("Error using OpenAI API: " ++ e)%string.

Section Synthesis.

(** [docx.Document()] opens the default template of the document library,
    which is not part of the program: its styles and sections are
    parameters. The template holds no paragraph and no table. *)
Variable template_styles : list Style.
Variable template_sections : list Section_.

Definition new_Document : Document :=
  {| doc_paragraphs := []; doc_tables := [];
     doc_sections := template_sections; doc_styles := template_styles |}.

(** The function returns the document ([None] for Python's [None]) with the
    messages passed to [st.error], or raises: the margins are set before the
    [try], and every exception raised after it, by the oracle or by the
    formatting of a block, is reported and answered with [None]. *)
Definition apply_formatting_to_docx
    (target_doc : Document) (formatting_info : Formatting)
    (openai_client : OpenAI)
  : outcome (option Document * list string) :=
  let content := target_content target_doc in
  new_doc <-
    set_document_properties (overall_style formatting_info) new_Document ;;
  let prompt := build_prompt content in
  Returns
    match openai_client (messages prompt) with
    | Content classifications =>
        let classified_paragraphs :=
          classify_paragraphs classifications content in
        match append_all formatting_info classified_paragraphs new_doc with
        | Returns new_doc => (Some new_doc, [])
        | Raises e => (None, [openai_error e])
        end
    | APIError e => (None, [openai_error e])
    end.

End Synthesis.

(** ** main *)

(** What the page shows, in the order it is written. The input widgets (the
    text input, the two file uploaders and the button) return the inputs of
    the run and write nothing of their own. The bytes offered for download
    are the saved document; they are kept as the document itself. *)
Inductive ui_element :=
| st_title (body : string)
| st_write (body : string)
| st_subheader (body : string)
| st_spinner (body : string)
| st_info (body : string)
| st_success (body : string)
| st_error (body : string)
| st_download_button (label : string) (data : Document)
                     (file_name : string) (mime : string).

Definition page_header : list ui_element :=
  [st_title "Document Formatter with OpenAI";
   st_write "Upload a reference document and a target document to apply the same formatting.";
   st_subheader "Reference Document (with formatting)";
   st_subheader "Target Document (to be formatted)"].

Definition docx_mime : string :=
  "application/vnd.openxmlformats-officedocument.wordprocessingml.document".

Section Main.

Variable template_styles : list Style.
Variable template_sections : list Section_.

(** An uploaded file, and [docx.Document(file)]: the document read from it,
    or the message of the exception raised. *)
Variable File : Type.
Variable load : File -> Document + string.

(** [openai.OpenAI(api_key=api_key)] *)
Variable connect : string -> OpenAI.

(** The body of [if st.button("Format Document"):]. An exception that
    [apply_formatting_to_docx] lets through reaches the handler of [main]. *)
Definition format_document
    (reference_doc target_doc : Document) (client : OpenAI)
  : list ui_element :=
  let formatting_info := extract_formatting_from_docx reference_doc in
  [st_spinner "Extracting formatting from reference document...";
   st_spinner "Applying formatting to target document..."]
  ++ match apply_formatting_to_docx template_styles template_sections
             target_doc formatting_info client with
     | Returns result =>
         map st_error (snd result)
         ++ match fst result with
            | Some formatted_doc =>
                [st_success "Document formatted successfully!";
                 st_download_button "Download Formatted Document"
                   formatted_doc "formatted_document.docx" docx_mime]
            | None => []
            end
     | Raises e => [st_error ("An error occurred: " ++ e)%string]
     end.

Definition main
    (api_key : string) (reference_file target_file : option File)
    (button : bool) : list ui_element :=
  page_header ++
  match reference_file, target_file with
  | Some reference_file, Some target_file =>
      if truthy api_key then
        let client := connect api_key in
        match load reference_file with
        | inl reference_doc =>
            match load target_file with
            | inl target_doc =>
                if button
                then format_document reference_doc target_doc client
                else []
            | inr e => [st_error ("An error occurred: " ++ e)%string]
            end
        | inr e => [st_error ("An error occurred: " ++ e)%string]
        end
      else
        [st_info "Please provide your OpenAI API key and upload both documents."]
  | _, _ =>
      [st_info "Please provide your OpenAI API key and upload both documents."]
  end.

End Main.

(** ** Notions used by the statements *)

(** The messages sent to the oracle for a target document. *)
Definition request (target_doc : Document) : list (string * string) :=
  messages (build_prompt (target_content target_doc)).

(** The reference paragraphs that end in [headings] and in [paragraphs]. *)
Definition heading_paragraph (para : Paragraph) : bool :=
  non_blank (para_text para) && is_heading_style para.

Definition body_paragraph (para : Paragraph) : bool :=
  non_blank (para_text para) && negb (is_heading_style para).

(** The name the extractor records for a paragraph. *)
Definition resolved_style_name (para : Paragraph) : string :=
  match para_style para with
  | Some name => name
  | None => "Normal"
  end.

Definition no_margins : Margins :=
  {| m_top := None; m_bottom := None; m_left := None; m_right := None |}.

(** What a paragraph carries apart from its text. *)
Definition erase_text (run : Run) : Run :=
  {| run_text := ""; run_bold := run_bold run; run_italic := run_italic run;
     run_underline := run_underline run; run_font_name := run_font_name run;
     run_font_size := run_font_size run;
     run_font_color := run_font_color run |}.

Definition styling (p : Paragraph) : Paragraph :=
  {| para_style := para_style p; para_alignment := para_alignment p;
     para_runs := map erase_text (para_runs p) |}.

(** The styling a reference heading gives in a document with the styles
    [styles]: a function of the sample and of the styles only. *)
Definition heading_styling (styles : list Style) (ref_heading : StyleInfo)
  : outcome Paragraph :=
  fmap styling
       (heading_from_reference
          {| doc_paragraphs := []; doc_tables := []; doc_sections := [];
             doc_styles := styles |} ref_heading "").

(** Every character property present in [font_props] is the run's; the size
    is the one of [font_props] in whole half points. *)
Definition carries_font_props (font_props : RunProps) (run : Run) : Prop :=
  (forall b, bold font_props = Some b -> run_bold run = Some b) /\
  (forall b, italic font_props = Some b -> run_italic run = Some b) /\
  (forall name, font_name font_props = Some name -> truthy name = true ->
                run_font_name run = Some name) /\
  (forall size, font_size font_props = Some size ->
                float_truthy size = true ->
                run_font_size run = Some (6350 * (Pt size / 6350))) /\
  (forall rgb, color font_props = Some (ColorRGB rgb) ->
               run_font_color run = Some rgb).

(** No character property absent from [font_props] is set on the run. *)
Definition only_from_font_props (font_props : RunProps) (run : Run) : Prop :=
  (bold font_props = None -> run_bold run = None) /\
  (italic font_props = None -> run_italic run = None) /\
  (font_name font_props = None -> run_font_name run = None) /\
  (font_size font_props = None -> run_font_size run = None) /\
  (color font_props = None -> run_font_color run = None) /\
  run_underline run = None.

Definition set_headings (hs : list StyleInfo) (fmt : Formatting)
  : Formatting :=
  {| paragraphs := paragraphs fmt; headings := hs; tables := tables fmt;
     overall_style := overall_style fmt |}.

(** The reference sample the synthesizer applies to an item, if any. *)
Definition applied_sample (fmt : Formatting) (item : Item)
  : option StyleInfo :=
  if String.eqb (type item) "heading" then hd_error (headings fmt)
  else hd_error (paragraphs fmt).

(** A profile without the fields synthesis does not read: the default font
    name and size, the underline flags and the table samples. *)
Definition forget_underline (r : RunProps) : RunProps :=
  {| rp_text := rp_text r; bold := bold r; italic := italic r;
     underline := None; font_name := font_name r; font_size := font_size r;
     color := color r |}.

Definition forget_underlines (s : StyleInfo) : StyleInfo :=
  {| si_text := si_text s; alignment := alignment s;
     style_name := style_name s;
     font_properties := map forget_underline (font_properties s) |}.

Definition forget_unused (fmt : Formatting) : Formatting :=
  {| paragraphs := map forget_underlines (paragraphs fmt);
     headings := map forget_underlines (headings fmt);
     tables := [];
     overall_style :=
       {| default_font := None; default_font_size := None;
          margins := margins (overall_style fmt) |} |}.

(** A string has a character that is not white space. *)
Fixpoint has_non_space (s : string) : bool :=
  match s with
  | EmptyString => false
  | String c t => negb (isspace c) || has_non_space t
  end.

(** A line of the answer matches a block: it contains the first 20
    characters of the block, case ignored. *)
Definition line_matches (item : Item) (line : string) : bool :=
  contains (lower (take 20 (text item))) (lower line).

(** A line of the answer says "heading", case ignored. *)
Definition mentions_heading (line : string) : bool :=
  contains "heading" (lower line).

(** What synthesis reads of a run of a sample, of a heading sample and of a
    paragraph sample. *)
Definition used_of_run (r : RunProps)
  : option bool * option bool * option string * option Q
    * option color_value :=
  (bold r, italic r, font_name r, font_size r, color r).

Definition used_of_heading (s : StyleInfo) :=
  (alignment s, style_name s, option_map used_of_run
                                (hd_error (font_properties s))).

Definition used_of_paragraph (s : StyleInfo) :=
  (alignment s, option_map used_of_run (hd_error (font_properties s))).

Definition used_of_profile (fmt : Formatting) :=
  (margins (overall_style fmt),
   option_map used_of_heading (hd_error (headings fmt)),
   option_map used_of_paragraph (hd_error (paragraphs fmt))).

(** What one of the four guarded assignments of a margin does to the margin
    [old] of a section, [store] being what the section keeps of a length. *)
Definition margin_set (store : Z -> outcome Z) (v : option Q)
    (old new : Z) : Prop :=
  match v with
  | Some x => if float_truthy x then store (Inches x) = Returns new
              else new = old
  | None => new = old
  end.


(** The document has a paragraph style of that name: [p.style = name] does
    not raise. *)
Definition paragraph_style (name : string) (styles : list Style) : bool :=
  match get_style name styles with
  | Some style => match s_type style with PARAGRAPH => true | _ => false end
  | None => false
  end.

(** The run the character formatting of a heading starts from. *)
Definition heading_base (doc : Document) (ref_heading : StyleInfo)
    (txt : string) : Run :=
  if style_available ref_heading doc then add_run txt
  else if paragraph_style "Heading 1" (doc_styles doc) then add_run txt
       else set_font_size (Some 203200) (set_bold (Some true) (add_run txt)).

(** A run, a paragraph, a document and a result without the colours of the
    runs. *)
Definition erase_color (run : Run) : Run := set_font_color None run.

Definition erase_colors (p : Paragraph) : Paragraph :=
  {| para_style := para_style p; para_alignment := para_alignment p;
     para_runs := map erase_color (para_runs p) |}.

Definition without_colors (doc : Document) : Document :=
  {| doc_paragraphs := map erase_colors (doc_paragraphs doc);
     doc_tables := doc_tables doc;
     doc_sections := doc_sections doc;
     doc_styles := doc_styles doc |}.

Definition result_without_colors
    (result : outcome (option Document * list string))
  : outcome (option Document * list string) :=
  fmap (fun r => (option_map without_colors (fst r), snd r)) result.

(** A profile in which the colours that are not an [RGBColor] are
    absent. *)
Definition drop_refused_color (r : RunProps) : RunProps :=
  {| rp_text := rp_text r; bold := bold r; italic := italic r;
     underline := underline r; font_name := font_name r;
     font_size := font_size r;
     color := match color r with
              | Some (ColorRGB rgb) => Some (ColorRGB rgb)
              | _ => None
              end |}.

Definition drop_refused_colors (s : StyleInfo) : StyleInfo :=
  {| si_text := si_text s; alignment := alignment s;
     style_name := style_name s;
     font_properties := map drop_refused_color (font_properties s) |}.

Definition without_refused_colors (fmt : Formatting) : Formatting :=
  {| paragraphs := map drop_refused_colors (paragraphs fmt);
     headings := map drop_refused_colors (headings fmt);
     tables := tables fmt;
     overall_style := overall_style fmt |}.

(** The first run of a reference paragraph that the extractor records. *)
Definition first_recorded_run (para : Paragraph) : option Run :=
  hd_error (filter (fun run => non_blank (run_text run)) (para_runs para)).

(** The messages, the successes and the downloads of a page. *)
Definition errors_of (page : list ui_element) : list string :=
  flat_map (fun e => match e with st_error m => [m] | _ => [] end) page.

Definition successes_of (page : list ui_element) : list string :=
  flat_map (fun e => match e with st_success m => [m] | _ => [] end) page.

Definition infos_of (page : list ui_element) : list string :=
  flat_map (fun e => match e with st_info m => [m] | _ => [] end) page.

Definition downloads_of (page : list ui_element) : list Document :=
  flat_map (fun e => match e with
                     | st_download_button _ d _ _ => [d]
                     | _ => []
                     end) page.

(** ** Concrete documents, profiles and oracles *)

Module Examples.

Definition plain_style (name : string) : Style :=
  {| s_name := name; style_font_name := None; style_font_size := None;
     s_type := PARAGRAPH |}.

(** A template with the usual built-in styles and one section with margins
    of 1 inch (top, bottom) and 1.25 inch (left, right). *)
Definition styles0 : list Style :=
  [plain_style "Normal"; plain_style "Heading 1"; plain_style "Heading 2";
   plain_style "Title"].

Definition sections0 : list Section_ :=
  [{| top_margin := 914400; bottom_margin := 914400;
      left_margin := 1143000; right_margin := 1143000 |}].

Definition text_run (s : string) : Run := add_run s.

Definition plain_para (s : string) : Paragraph :=
  {| para_style := None; para_alignment := None;
     para_runs := [text_run s] |}.

(** The target of the scenarios: two blocks around a blank paragraph. *)
Definition target0 : Document :=
  {| doc_paragraphs :=
       [plain_para "Introduction"; plain_para "   ";
        plain_para "This report covers the year."];
     doc_tables := []; doc_sections := sections0; doc_styles := styles0 |}.

Definition blue : RGBColor := {| red := 0; green := 0; blue := 255 |}.

(** A reference document: a heading in "Heading 1", bold, 18pt, Calibri,
    a second heading in "Heading 2", and a body paragraph in "Title". *)
Definition reference0 : Document :=
  {| doc_paragraphs :=
       [{| para_style := Some "Heading 1"; para_alignment := Some CENTER;
           para_runs :=
             [{| run_text := "Overview"; run_bold := Some true;
                 run_italic := None; run_underline := Some true;
                 run_font_name := Some "Calibri";
                 run_font_size := Some 228600;
                 run_font_color := Some blue |}] |};
        {| para_style := Some "Heading 2"; para_alignment := Some LEFT;
           para_runs := [text_run "Details"] |};
        {| para_style := Some "Title"; para_alignment := Some JUSTIFY;
           para_runs :=
             [{| run_text := "Some body text."; run_bold := Some false;
                 run_italic := Some true; run_underline := None;
                 run_font_name := Some "Georgia";
                 run_font_size := Some 139700;
                 run_font_color := None |}] |};
        {| para_style := None; para_alignment := None;
           para_runs := [text_run "No style at all."] |}];
     doc_tables :=
       [{| table_rows := [[{| cell_text := "a";
                              cell_vertical_alignment := Some TOP |}]];
           table_columns := 1 |}];
     doc_sections :=
       [{| top_margin := 457200; bottom_margin := 457200;
           left_margin := 0; right_margin := 685800 |}];
     doc_styles :=
       [{| s_name := "Normal"; style_font_name := Some "Arial";
           style_font_size := None; s_type := PARAGRAPH |};
        plain_style "Heading 1"] |}.

Definition profile0 : Formatting := extract_formatting_from_docx reference0.

(** A reference without sections and without a "Normal" style. *)
Definition reference_bare : Document :=
  {| doc_paragraphs := [plain_para "Only text."]; doc_tables := [];
     doc_sections := []; doc_styles := [plain_style "Heading 1"] |}.

(** The same profile as [profile0] in everything synthesis reads. *)
Definition profile0' : Formatting :=
  {| paragraphs :=
       map (fun s =>
              {| si_text := si_text s; alignment := alignment s;
                 style_name := style_name s;
                 font_properties :=
                   map (fun r =>
                          {| rp_text := rp_text r; bold := bold r;
                             italic := italic r; underline := Some false;
                             font_name := font_name r;
                             font_size := font_size r;
                             color := color r |})
                       (font_properties s) |})
           (paragraphs profile0);
     headings := headings profile0;
     tables := [];
     overall_style :=
       {| default_font := Some "Courier";
          default_font_size := Some (inject_Z 30);
          margins := margins (overall_style profile0) |} |}.

(** A heading sample whose colour is not an [RGBColor]. *)
Definition profile_bad_color : Formatting :=
  {| paragraphs := [];
     headings :=
       [{| si_text := "Overview"; alignment := None;
           style_name := Some "Heading 1";
           font_properties :=
             [{| rp_text := "Overview"; bold := Some true; italic := None;
                 underline := None; font_name := None; font_size := None;
                 color := Some (ColorOther "FF0000") |}] |}];
     tables := [];
     overall_style :=
       {| default_font := None; default_font_size := None;
          margins := None |} |}.

Definition answer0 : string :=
  ("Introduction - heading" ++ nl ++ "This report covers the year. - body")
  %string.

Definition oracle0 : OpenAI := fun _ => Content answer0.

(** An oracle whose answer names no block and has a single line. *)
Definition oracle_vague : OpenAI := fun _ => Content "heading, I guess".

Definition oracle_down : OpenAI := fun _ => APIError "401 Unauthorized".

End Examples.

(** ** Concrete uploads *)

Module Uploads.

(** Three uploads: the reference and the target of [Examples], and a file
    that is not a document. *)
Inductive file := reference_docx | target_docx | broken_docx.

Definition load (f : file) : Document + string :=
  match f with
  | reference_docx => inl Examples.reference0
  | target_docx => inl Examples.target0
  | broken_docx => inr "File is not a zip file"
  end.

Definition connect (api_key : string) : OpenAI :=
  if String.eqb api_key "sk-valid" then Examples.oracle0
  else Examples.oracle_down.

(** A target with the same texts as [Examples.target0], laid out and styled
    differently. *)
Definition target1 : Document :=
  {| doc_paragraphs :=
       [{| para_style := Some "Title"; para_alignment := Some RIGHT;
           para_runs := [add_run "Intro"; add_run "duction"] |};
        Examples.plain_para "This report covers the year.";
        Examples.plain_para ""];
     doc_tables := doc_tables Examples.reference0;
     doc_sections := []; doc_styles := [] |}.

(** A profile that agrees with [Examples.profile0] on what synthesis
    reads. *)
Definition profile1 : Formatting :=
  {| paragraphs :=
       [{| si_text := "other"; alignment := Some JUSTIFY;
           style_name := None;
           font_properties :=
             [{| rp_text := "x"; bold := Some false; italic := Some true;
                 underline := Some true; font_name := Some "Georgia";
                 font_size := Some (pt 139700); color := None |};
              {| rp_text := "y"; bold := Some true; italic := None;
                 underline := None; font_name := None; font_size := None;
                 color := None |}] |}];
     headings := [hd (style_info (Examples.plain_para ""))
                     (headings Examples.profile0)];
     tables := [];
     overall_style :=
       {| default_font := None; default_font_size := None;
          margins := margins (overall_style Examples.profile0) |} |}.

(** An answer whose second line names the first block. *)
Definition answer1 : string :=
  ("Here is the result" ++ nl ++ "INTRODUCTION is a Heading" ++ nl
   ++ "the rest is body")%string.

(** A template whose style "Heading 1 Char" is a character style. *)
Definition styles_char : list Style :=
  Examples.styles0 ++
  [{| s_name := "Heading 1 Char"; style_font_name := None;
      style_font_size := None; s_type := CHARACTER |}].

(** A reference whose heading has the style "Heading 1 Char". *)
Definition reference_char : Document :=
  {| doc_paragraphs :=
       [{| para_style := Some "Heading 1 Char"; para_alignment := None;
           para_runs := [add_run "Overview"] |}];
     doc_tables := []; doc_sections := []; doc_styles := [] |}.

(** A reference whose first section has a negative left margin. *)
Definition reference_negative : Document :=
  {| doc_paragraphs := [Examples.plain_para "Only text."];
     doc_tables := [];
     doc_sections :=
       [{| top_margin := 914400; bottom_margin := 914400;
           left_margin := -457200; right_margin := 914400 |}];
     doc_styles := [] |}.

(** A profile whose samples ask for sizes and margins off the grids of the
    document format: 10.25 points, and 1025/1024 inch at the top. *)
Definition profile_off_grid : Formatting :=
  {| paragraphs :=
       [{| si_text := "text"; alignment := None; style_name := None;
           font_properties := [] |}];
     headings :=
       [{| si_text := "Overview"; alignment := None;
           style_name := Some "Heading 1";
           font_properties :=
             [{| rp_text := "Overview"; bold := None; italic := None;
                 underline := None; font_name := None;
                 font_size := Some (41 # 4); color := None |}] |}];
     tables := [];
     overall_style :=
       {| default_font := None; default_font_size := None;
          margins := Some {| m_top := Some (1025 # 1024); m_bottom := None;
                             m_left := None; m_right := None |} |} |}.

End Uploads.

(** * Properties *)

(** ** Strings *)

Lemma lower_char_newline (c : ascii) :
  Ascii.eqb (lower_char c) (ascii_of_nat 10) = Ascii.eqb c (ascii_of_nat 10).
Proof.
  destruct c as [[|] [|] [|] [|] [|] [|] [|] [|]]; reflexivity.
Qed.

Lemma lower_char_idempotent (c : ascii) :
  lower_char (lower_char c) = lower_char c.
Proof.
  destruct c as [[|] [|] [|] [|] [|] [|] [|] [|]]; reflexivity.
Qed.

Lemma lower_idempotent (s : string) : lower (lower s) = lower s.
Proof.
  induction s as [|c t IH]; simpl; [reflexivity|].
  now rewrite lower_char_idempotent, IH.
Qed.

Lemma split_lines_not_nil (s : string) : split_lines s <> [].
Proof.
  induction s as [|c t IH]; simpl; [discriminate|].
  destruct (Ascii.eqb c (ascii_of_nat 10)); [discriminate|].
  destruct (split_lines t); [contradiction | discriminate].
Qed.

(** Lowering a text and splitting it into lines commute. *)
Lemma split_lines_lower (s : string) :
  split_lines (lower s) = map lower (split_lines s).
Proof.
  induction s as [|c t IH]; simpl; [reflexivity|].
  rewrite lower_char_newline, IH.
  destruct (Ascii.eqb c (ascii_of_nat 10)); [reflexivity|].
  pose proof (split_lines_not_nil t) as Hne.
  destruct (split_lines t) as [|l ls]; [contradiction | reflexivity].
Qed.

Lemma concat_single (s : string) : String.concat "" [s] = s.
Proof. reflexivity. Qed.

(** ** The extractor *)

Lemma extract_paragraphs_fold (ps : list Paragraph) :
  forall acc,
    fold_left extract_paragraph ps acc =
    (fst acc ++ map style_info (filter body_paragraph ps),
     snd acc ++ map style_info (filter heading_paragraph ps)).
Proof.
  induction ps as [|p ps IH]; intros [bs hs]; simpl.
  - now rewrite !app_nil_r.
  - rewrite IH. unfold extract_paragraph, body_paragraph, heading_paragraph.
    destruct (non_blank (para_text p)); simpl; [|reflexivity].
    destruct (is_heading_style p); simpl;
      now rewrite <- ?app_assoc.
Qed.

Lemma extracted_headings (doc : Document) :
  headings (extract_formatting_from_docx doc) =
  map style_info (filter heading_paragraph (doc_paragraphs doc)).
Proof.
  unfold extract_formatting_from_docx; simpl.
  now rewrite extract_paragraphs_fold.
Qed.

Lemma extracted_paragraphs (doc : Document) :
  paragraphs (extract_formatting_from_docx doc) =
  map style_info (filter body_paragraph (doc_paragraphs doc)).
Proof.
  unfold extract_formatting_from_docx; simpl.
  now rewrite extract_paragraphs_fold.
Qed.

(** The name recorded in a sample decides the list the sample goes to. *)
Lemma is_heading_style_by_name (para : Paragraph) (name : string) :
  style_name (style_info para) = Some name ->
  is_heading_style para = contains "Heading" name.
Proof.
  unfold style_info, is_heading_style; simpl.
  destruct (para_style para) as [n|]; intros [= <-]; reflexivity.
Qed.

(** C8. A non-blank paragraph of the reference document is recorded with its
    resolved style name, which is "Normal" when the paragraph has no style;
    its sample is in [headings] if and only if that name contains "Heading"
    (compared as written, case included), and in [paragraphs] if and only if
    it does not. *)
Theorem heading_sample_iff_style_name_contains_Heading
    (doc : Document) (para : Paragraph) :
  In para (doc_paragraphs doc) ->
  non_blank (para_text para) = true ->
  let fmt := extract_formatting_from_docx doc in
  let sample := style_info para in
  style_name sample = Some (resolved_style_name para) /\
  (para_style para = None -> style_name sample = Some "Normal") /\
  (In sample (headings fmt) <->
   contains "Heading" (resolved_style_name para) = true) /\
  (In sample (paragraphs fmt) <->
   contains "Heading" (resolved_style_name para) = false).
Proof.
  intros Hin Hnb fmt sample.
  assert (Hname : style_name sample = Some (resolved_style_name para))
    by reflexivity.
  pose proof (is_heading_style_by_name para _ Hname) as Hpara.
  split; [exact Hname|]. split.
  - intros Hnone. unfold sample, style_info; simpl. now rewrite Hnone.
  - subst fmt. rewrite extracted_headings, extracted_paragraphs.
    rewrite !in_map_iff. split; split.
    + intros (q & Hq & Hfq). apply filter_In in Hfq as [_ Hfq].
      unfold heading_paragraph in Hfq. apply andb_true_iff in Hfq as [_ Hh].
      assert (Hqn : style_name (style_info q) = Some (resolved_style_name para))
        by (rewrite Hq; exact Hname).
      now rewrite <- (is_heading_style_by_name q _ Hqn).
    + intros Hc. exists para. split; [reflexivity|].
      apply filter_In. split; [exact Hin|].
      unfold heading_paragraph. now rewrite Hnb, Hpara, Hc.
    + intros (q & Hq & Hfq). apply filter_In in Hfq as [_ Hfq].
      unfold body_paragraph in Hfq. apply andb_true_iff in Hfq as [_ Hh].
      assert (Hqn : style_name (style_info q) = Some (resolved_style_name para))
        by (rewrite Hq; exact Hname).
      rewrite <- (is_heading_style_by_name q _ Hqn).
      now apply negb_true_iff.
    + intros Hc. exists para. split; [reflexivity|].
      apply filter_In. split; [exact Hin|].
      unfold body_paragraph. now rewrite Hnb, Hpara, Hc.
Qed.

Lemma heading_sample_iff_style_name_contains_Heading_witness :
  let para := nth 0 (doc_paragraphs Examples.reference0)
                  (Examples.plain_para "") in
  let bare := nth 3 (doc_paragraphs Examples.reference0)
                  (Examples.plain_para "") in
  In (style_info para) (headings Examples.profile0) /\
  style_name (style_info bare) = Some "Normal" /\
  ~ In (style_info bare) (headings Examples.profile0).
Proof.
  intros para bare.
  destruct (heading_sample_iff_style_name_contains_Heading
              Examples.reference0 para) as (_ & _ & Hh & _).
  { simpl. left. reflexivity. }
  { reflexivity. }
  destruct (heading_sample_iff_style_name_contains_Heading
              Examples.reference0 bare) as (_ & Hn & Hh' & _).
  { simpl. right. right. right. left. reflexivity. }
  { reflexivity. }
  split; [apply Hh; reflexivity|].
  split; [apply Hn; reflexivity|].
  intros Hin. apply Hh' in Hin. discriminate Hin.
Defined.

(** C9, as stated, fails: the reference [Examples.reference0] has a "Normal"
    style without an explicit font size, and the extracted default font name
    is "Arial", not absent. *)
Lemma normal_without_size_keeps_font_name :
  (exists normal,
      get_style "Normal" (doc_styles Examples.reference0) = Some normal /\
      style_font_size normal = None) /\
  default_font (overall_style
                  (extract_formatting_from_docx Examples.reference0))
  = Some "Arial" /\
  default_font (overall_style
                  (extract_formatting_from_docx Examples.reference0))
  <> None.
Proof.
  split; [eexists; split; reflexivity|].
  split; [reflexivity | discriminate].
Qed.

(** C9, amended. Without sections all four extracted margins are absent.
    Without a "Normal" style the default font name and size are both absent.
    With a "Normal" style that has no explicit font size the extracted size
    is absent and the extracted name is whatever name that style carries
    (absent exactly when the style has none). An extracted size is never
    zero. *)
Theorem extracted_layout_absent_not_zero (doc : Document) :
  let overall := overall_style (extract_formatting_from_docx doc) in
  (doc_sections doc = [] -> margins overall = Some no_margins) /\
  (get_style "Normal" (doc_styles doc) = None ->
   default_font overall = None /\ default_font_size overall = None) /\
  (forall normal,
      get_style "Normal" (doc_styles doc) = Some normal ->
      style_font_size normal = None ->
      default_font_size overall = None /\
      default_font overall = style_font_name normal) /\
  (forall size, default_font_size overall = Some size ->
                float_truthy size = true).
Proof.
  simpl. unfold extract_formatting_from_docx, extract_overall_style; simpl.
  split; [|split; [|split]].
  - intros ->. reflexivity.
  - intros ->. split; reflexivity.
  - intros normal -> ->. split; reflexivity.
  - intros size.
    destruct (get_style "Normal" (doc_styles doc)) as [normal|];
      [|discriminate].
    destruct (style_font_size normal) as [sz|]; [|discriminate].
    destruct (sz =? 0) eqn:Hz; [discriminate|].
    intros Hsize. injection Hsize as <-.
    unfold float_truthy, pt; simpl. now rewrite Hz.
Qed.

Lemma extracted_layout_absent_not_zero_witness :
  margins (overall_style
             (extract_formatting_from_docx Examples.reference_bare))
  = Some no_margins /\
  default_font (overall_style
                  (extract_formatting_from_docx Examples.reference_bare))
  = None /\
  default_font_size
    (overall_style (extract_formatting_from_docx Examples.reference_bare))
  = None /\
  default_font_size
    (overall_style (extract_formatting_from_docx Examples.reference0))
  = None.
Proof.
  destruct (extracted_layout_absent_not_zero Examples.reference_bare)
    as (Hm & Hn & _ & _).
  destruct (extracted_layout_absent_not_zero Examples.reference0)
    as (_ & _ & Hs & _).
  split; [apply Hm; reflexivity|].
  destruct Hn as [Hf Hz]; [reflexivity|].
  split; [exact Hf|]. split; [exact Hz|].
  exact (proj1 (Hs _ eq_refl eq_refl)).
Defined.

(** ** The role classifier *)

Lemma match_line_none (needle : string) (lines : list string) :
  (forall line, In line lines -> contains needle (lower line) = false) ->
  match_line needle lines = None.
Proof.
  induction lines as [|l ls IH]; intros H; simpl; [reflexivity|].
  rewrite (H l (or_introl eq_refl)). apply IH.
  intros line Hin. apply H. now right.
Qed.

Lemma classify_text (lines : list string) (i : nat) (item : Item) :
  text (classify lines i item) = text item.
Proof. reflexivity. Qed.

Lemma classify_from_nth (lines : list string) (content : list Item) :
  forall k i,
    nth_error (classify_from lines k content) i =
    option_map (classify lines (k + i)) (nth_error content i).
Proof.
  induction content as [|c cs IH]; intros k [|i]; simpl; try reflexivity.
  - now rewrite Nat.add_0_r.
  - rewrite IH. now rewrite Nat.add_succ_r.
Qed.

Lemma classify_from_texts (lines : list string) (content : list Item) :
  forall k, map text (classify_from lines k content) = map text content.
Proof.
  induction content as [|c cs IH]; intros k; simpl; [reflexivity|].
  now rewrite IH.
Qed.

Lemma classify_from_length (lines : list string) (content : list Item) :
  forall k, List.length (classify_from lines k content) = List.length content.
Proof.
  induction content as [|c cs IH]; intros k; simpl; [reflexivity|].
  now rewrite IH.
Qed.

(** C2. A block whose first 20 characters, compared without case, occur in
    no line of the oracle's answer, and whose index is not below the number
    of lines of the answer, is classified "body". *)
Theorem unmatched_block_without_line_is_body
    (classifications : string) (content : list Item) (i : nat)
    (item : Item) :
  nth_error content i = Some item ->
  (forall line, In line (split_lines classifications) ->
                contains (lower (take 20 (text item))) (lower line) = false) ->
  (List.length (split_lines classifications) <= i)%nat ->
  nth_error (classify_paragraphs classifications content) i =
  Some {| type := "body"; text := text item |}.
Proof.
  intros Hitem Hno Hlen.
  unfold classify_paragraphs. rewrite classify_from_nth, Hitem. simpl.
  unfold classify. rewrite split_lines_lower.
  rewrite match_line_none.
  - rewrite length_map.
    destruct (Nat.ltb_spec i (List.length (split_lines classifications)));
      [lia | reflexivity].
  - intros line Hin. apply in_map_iff in Hin as (l & <- & Hl).
    rewrite lower_idempotent. now apply Hno.
Qed.

Lemma unmatched_block_without_line_is_body_witness :
  nth_error (classify_paragraphs "heading, I guess"
               (target_content Examples.target0)) 1 =
  Some {| type := "body"; text := "This report covers the year." |}.
Proof.
  apply (unmatched_block_without_line_is_body
           "heading, I guess" (target_content Examples.target0) 1
           {| type := "paragraph"; text := "This report covers the year." |}).
  - reflexivity.
  - intros line [<- | []]. reflexivity.
  - simpl. lia.
Defined.

(** ** Blank texts *)

Lemma lstrip_empty (s : string) :
  has_non_space s = false -> lstrip s = EmptyString.
Proof.
  induction s as [|c t IH]; simpl; [reflexivity|].
  destruct (isspace c); simpl; [exact IH | discriminate].
Qed.

Lemma lstrip_head (s : string) :
  has_non_space s = true ->
  exists c t, lstrip s = String c t /\ isspace c = false.
Proof.
  induction s as [|c t IH]; simpl; [discriminate|].
  destruct (isspace c) eqn:Hc; simpl; [exact IH|].
  intros _. now exists c, t.
Qed.

Lemma rstrip_head (c : ascii) (t : string) :
  isspace c = false -> truthy (rstrip (String c t)) = true.
Proof.
  intros Hc. simpl. destruct (rstrip t); [now rewrite Hc | reflexivity].
Qed.

(** [s.strip()] is true exactly when [s] has a character that is not white
    space: the empty text and the texts made of white space are the blank
    ones. *)
Theorem non_blank_iff_has_non_space (s : string) :
  non_blank s = has_non_space s.
Proof.
  unfold non_blank, strip.
  destruct (has_non_space s) eqn:H.
  - destruct (lstrip_head s H) as (c & t & -> & Hc).
    now apply rstrip_head.
  - now rewrite (lstrip_empty s H).
Qed.

(** ** Substrings *)

Lemma contains_prefix (n h : string) :
  String.prefix n h = true -> contains n h = true.
Proof. intros H. destruct h; cbn [contains]; now rewrite H. Qed.

(** ** More on the extractor *)

Lemma filter_partition_length {A : Type} (f g : A -> bool) (l : list A) :
  (List.length (filter (fun x => f x && g x) l)
   + List.length (filter (fun x => f x && negb (g x)) l)
   = List.length (filter f l))%nat.
Proof.
  induction l as [|x l IH]; simpl; [reflexivity|].
  destruct (f x), (g x); simpl; lia.
Qed.

(** Every non-blank paragraph of the reference gives one sample, in one of
    the two lists and in the order of the document; a blank paragraph gives
    none. *)
Theorem extractor_partitions_non_blank_paragraphs (doc : Document) :
  let fmt := extract_formatting_from_docx doc in
  map si_text (headings fmt) =
  map para_text (filter heading_paragraph (doc_paragraphs doc)) /\
  map si_text (paragraphs fmt) =
  map para_text (filter body_paragraph (doc_paragraphs doc)) /\
  (List.length (headings fmt) + List.length (paragraphs fmt) =
   List.length (filter (fun para => non_blank (para_text para))
                       (doc_paragraphs doc)))%nat.
Proof.
  cbv zeta. rewrite extracted_headings, extracted_paragraphs.
  rewrite !map_map, !length_map. repeat split.
  apply (filter_partition_length
           (fun para => non_blank (para_text para)) is_heading_style).
Qed.

(** The samples the extractor builds are well formed: the text of a sample
    is not blank, its style name is present, and each of its runs has a text
    that is not blank, a size that is not zero when present, and a colour
    that is an [RGBColor] when present. *)
Theorem extracted_samples_are_well_formed
    (doc : Document) (sample : StyleInfo) :
  let fmt := extract_formatting_from_docx doc in
  In sample (headings fmt ++ paragraphs fmt) ->
  non_blank (si_text sample) = true /\
  (exists name, style_name sample = Some name) /\
  forall rp, In rp (font_properties sample) ->
             non_blank (rp_text rp) = true /\
             (forall size, font_size rp = Some size ->
                           float_truthy size = true) /\
             (forall value, color rp = Some value ->
                            exists rgb, value = ColorRGB rgb).
Proof.
  cbv zeta. rewrite extracted_headings, extracted_paragraphs.
  intros Hin.
  assert (Hpara : exists para,
             sample = style_info para /\ non_blank (para_text para) = true).
  { apply in_app_or in Hin as [Hin | Hin];
      apply in_map_iff in Hin as (para & <- & Hf);
      apply filter_In in Hf as [_ Hf];
      apply andb_true_iff in Hf as [Hnb _]; now exists para. }
  destruct Hpara as (para & -> & Hnb).
  split; [exact Hnb|]. split; [eexists; reflexivity|].
  intros rp Hrp. simpl in Hrp.
  apply in_map_iff in Hrp as (run & <- & Hrun).
  apply filter_In in Hrun as [_ Hrun].
  split; [exact Hrun|]. unfold run_props; simpl. split.
  - intros size. destruct (run_font_size run) as [sz|]; [|discriminate].
    destruct (sz =? 0) eqn:Hz; [discriminate|].
    intros Hsize. injection Hsize as <-.
    unfold float_truthy, pt; simpl. now rewrite Hz.
  - intros value. destruct (run_font_color run) as [rgb|]; [|discriminate].
    intros Hv. injection Hv as <-. now exists rgb.
Qed.

Lemma extracted_samples_are_well_formed_witness :
  let sample := hd (style_info (Examples.plain_para ""))
                   (headings Examples.profile0) in
  non_blank (si_text sample) = true /\
  forall rp, In rp (font_properties sample) ->
             forall value, color rp = Some value ->
                           exists rgb, value = ColorRGB rgb.
Proof.
  intros sample.
  destruct (extracted_samples_are_well_formed Examples.reference0 sample)
    as (Htext & _ & Hruns).
  { simpl. left. reflexivity. }
  split; [exact Htext|].
  intros rp Hrp. exact (proj2 (proj2 (Hruns rp Hrp))).
Defined.

(** ** More on the role classifier *)

Lemma heading_or_body_lower (line : string) :
  heading_or_body (lower line) = heading_or_body line.
Proof. unfold heading_or_body. now rewrite lower_idempotent. Qed.

Lemma match_line_lower (needle : string) (lines : list string) :
  match_line needle (map lower lines) = match_line needle lines.
Proof.
  induction lines as [|l ls IH]; simpl; [reflexivity|].
  now rewrite lower_idempotent, heading_or_body_lower, IH.
Qed.

Lemma classify_lower (lines : list string) (i : nat) (item : Item) :
  classify (map lower lines) i item = classify lines i item.
Proof.
  unfold classify. rewrite match_line_lower, length_map.
  change EmptyString with (lower EmptyString) at 1.
  now rewrite map_nth, heading_or_body_lower.
Qed.

Lemma classify_from_lower (lines : list string) (content : list Item) :
  forall k, classify_from (map lower lines) k content =
            classify_from lines k content.
Proof.
  induction content as [|c cs IH]; intros k; simpl; [reflexivity|].
  now rewrite classify_lower, IH.
Qed.

(** The roles can be read off the lines of the answer as it was written. *)
Lemma classify_paragraphs_lines (classifications : string)
    (content : list Item) :
  classify_paragraphs classifications content =
  classify_from (split_lines classifications) 0 content.
Proof.
  unfold classify_paragraphs.
  now rewrite split_lines_lower, classify_from_lower.
Qed.

Lemma match_line_first (needle : string) (before after : list string)
    (line : string) :
  (forall l, In l before -> contains needle (lower l) = false) ->
  contains needle (lower line) = true ->
  match_line needle (before ++ line :: after) = Some (heading_or_body line).
Proof.
  induction before as [|b bs IH]; intros Hno Hyes; simpl.
  - now rewrite Hyes.
  - rewrite (Hno b (or_introl eq_refl)). apply IH; [|exact Hyes].
    intros l Hl. apply Hno. now right.
Qed.

Lemma match_line_found (needle : string) (lines : list string) (c : string) :
  match_line needle lines = Some c ->
  exists line, In line lines /\ contains needle (lower line) = true /\
               c = heading_or_body line.
Proof.
  induction lines as [|l ls IH]; simpl; [discriminate|].
  destruct (contains needle (lower l)) eqn:Hl.
  - intros H. injection H as <-. exists l. now repeat split; [left|..].
  - intros H. destruct (IH H) as (line & Hin & Hc & ->).
    exists line. repeat split; [now right | exact Hc].
Qed.

(** The first line of the answer that contains the first 20 characters of a
    block, case ignored, gives the block its role: heading if the line says
    "heading", body if not. The position of the block plays no part. *)
Theorem first_matching_line_gives_the_role
    (classifications : string) (content : list Item) (i : nat)
    (item : Item) (before after : list string) (line : string) :
  nth_error content i = Some item ->
  split_lines classifications = before ++ line :: after ->
  (forall l, In l before -> line_matches item l = false) ->
  line_matches item line = true ->
  nth_error (classify_paragraphs classifications content) i =
  Some {| type := if mentions_heading line then "heading" else "body";
          text := text item |}.
Proof.
  intros Hitem Hsplit Hbefore Hline.
  rewrite classify_paragraphs_lines, classify_from_nth, Hitem, Hsplit.
  simpl. unfold classify.
  now rewrite (match_line_first _ before after line Hbefore Hline).
Qed.

(** When no line contains the first 20 characters of a block, the line at
    the index of the block, if there is one, gives the role. *)
Theorem unmatched_block_takes_the_role_of_its_line
    (classifications : string) (content : list Item) (i : nat)
    (item : Item) (line : string) :
  nth_error content i = Some item ->
  (forall l, In l (split_lines classifications) ->
             line_matches item l = false) ->
  nth_error (split_lines classifications) i = Some line ->
  nth_error (classify_paragraphs classifications content) i =
  Some {| type := if mentions_heading line then "heading" else "body";
          text := text item |}.
Proof.
  intros Hitem Hno Hline.
  rewrite classify_paragraphs_lines, classify_from_nth, Hitem.
  simpl. unfold classify. rewrite (match_line_none _ _ Hno).
  assert (Hlt : (i < List.length (split_lines classifications))%nat)
    by (apply nth_error_Some; now rewrite Hline).
  apply Nat.ltb_lt in Hlt. rewrite Hlt.
  now rewrite (nth_error_nth _ _ _ Hline).
Qed.

(** The classifier keeps the blocks: as many items, the same texts in the
    same order, and every role is "heading" or "body". *)
Theorem classification_keeps_the_blocks
    (classifications : string) (content : list Item) :
  map text (classify_paragraphs classifications content) = map text content
  /\ Forall (fun item => type item = "heading" \/ type item = "body")
            (classify_paragraphs classifications content).
Proof.
  split; [apply classify_from_texts|].
  unfold classify_paragraphs.
  generalize (split_lines (lower classifications)) as lines.
  generalize 0%nat as k. intros k lines. revert k.
  induction content as [|c cs IH]; intros k; simpl; constructor;
    [|apply IH].
  unfold classify; simpl.
  destruct (match_line _ lines) as [r|] eqn:Hm.
  - apply match_line_found in Hm as (line & _ & _ & ->).
    unfold heading_or_body. destruct (contains _ _); auto.
  - destruct (k <? List.length lines)%nat; [|now right].
    unfold heading_or_body. destruct (contains _ _); auto.
Qed.

(** A block is given the role heading only when some line of the answer
    says "heading": an answer that never says it makes every block body. *)
Theorem heading_role_needs_a_line_saying_heading
    (classifications : string) (content : list Item) (i : nat)
    (item : Item) :
  nth_error (classify_paragraphs classifications content) i = Some item ->
  type item = "heading" ->
  exists line, In line (split_lines classifications) /\
               mentions_heading line = true.
Proof.
  rewrite classify_paragraphs_lines, classify_from_nth.
  destruct (nth_error content i) as [it|]; [|discriminate].
  simpl. intros H. injection H as <-. unfold classify; simpl.
  set (lines := split_lines classifications).
  assert (Hhb : forall line, heading_or_body line = "heading" ->
                             mentions_heading line = true).
  { intros line. unfold heading_or_body, mentions_heading.
    destruct (contains "heading" (lower line)); [reflexivity|discriminate]. }
  destruct (match_line _ lines) as [r|] eqn:Hm.
  - apply match_line_found in Hm as (line & Hin & _ & ->).
    intros Hr. exists line. split; [exact Hin | now apply Hhb].
  - destruct (Nat.ltb_spec i (List.length lines)); [|discriminate].
    intros Hr. exists (nth i lines ""). split; [now apply nth_In|].
    now apply Hhb.
Qed.

(** Matching looks at the first 20 characters only: two blocks that agree
    on them, case ignored, and that some line matches, get the same role
    wherever they stand. *)
Theorem blocks_with_the_same_prefix_get_the_same_role
    (lines : list string) (i j : nat) (a b : Item) (line : string) :
  lower (take 20 (text a)) = lower (take 20 (text b)) ->
  In line lines ->
  line_matches a line = true ->
  type (classify lines i a) = type (classify lines j b).
Proof.
  intros Hprefix Hin Hline. unfold classify; simpl. rewrite <- Hprefix.
  destruct (match_line (lower (take 20 (text a))) lines) eqn:Hm;
    [reflexivity|].
  exfalso. clear - Hin Hline Hm. unfold line_matches in Hline.
  induction lines as [|l ls IH]; [contradiction|]. simpl in Hm.
  destruct (contains (lower (take 20 (text a))) (lower l)) eqn:Hl;
    [discriminate|].
  destruct Hin as [-> | Hin]; [congruence | now apply IH].
Qed.

(** ** The request *)

Lemma prefix_empty (n : string) : String.prefix n "" = true -> n = "".
Proof. destruct n; [reflexivity | discriminate]. Qed.

Lemma prefix_append_r (n a b : string) :
  String.prefix n a = true -> String.prefix n (a ++ b)%string = true.
Proof.
  revert n. induction a as [|c a IH]; intros n H.
  - apply prefix_empty in H. subst n. now destruct b.
  - destruct n as [|d n]; [reflexivity|]. simpl in *.
    destruct (ascii_dec d c); [now apply IH | discriminate].
Qed.

Lemma contains_append_r (n a b : string) :
  contains n a = true -> contains n (a ++ b)%string = true.
Proof.
  induction a as [|c a IH]; intros H.
  - cbn [contains] in H. rewrite orb_false_r in H.
    apply prefix_empty in H. subst n. simpl. now destruct b.
  - cbn [contains] in H. apply orb_true_iff in H as [H | H].
    + apply contains_prefix.
      exact (prefix_append_r n (String c a) b H).
    + simpl. rewrite (IH H). apply orb_true_r.
Qed.

Lemma build_prompt_keeps (n : string) (content : list Item) :
  forall acc,
    contains n acc = true ->
    contains n (fold_left (fun prompt item =>
                             (prompt ++ nl ++ "Text: " ++ text item ++ nl)
                             %string) content acc) = true.
Proof.
  induction content as [|c cs IH]; intros acc H; simpl; [exact H|].
  apply IH. now apply contains_append_r.
Qed.

Lemma prefix_same (n : string) : String.prefix n n = true.
Proof.
  induction n as [|c n IH]; simpl; [reflexivity|].
  destruct (ascii_dec c c) as [_|Hne]; [exact IH | now elim Hne].
Qed.

Lemma contains_append_l (a n : string) : contains n (a ++ n)%string = true.
Proof.
  induction a as [|c a IH]; simpl.
  - apply contains_prefix, prefix_same.
  - rewrite IH. apply orb_true_r.
Qed.

(** The request names every block: for each block the prompt has a line
    made of "Text: " and the text of the block. It is sent as the user
    message, after one system message. *)
Theorem request_names_every_block (target_doc : Document) (item : Item) :
  In item (target_content target_doc) ->
  exists system prompt,
    request target_doc = [("system", system); ("user", prompt)] /\
    contains (nl ++ "Text: " ++ text item ++ nl)%string prompt = true.
Proof.
  intros Hin. unfold request, messages. do 2 eexists.
  split; [reflexivity|]. unfold build_prompt.
  generalize prompt_header as acc.
  induction (target_content target_doc) as [|c cs IH]; [contradiction|].
  intros acc. cbn [fold_left].
  destruct Hin as [-> | Hin]; [|now apply IH].
  apply build_prompt_keeps, contains_append_l.
Qed.


Lemma first_matching_line_gives_the_role_witness :
  nth_error (classify_paragraphs Uploads.answer1
               (target_content Examples.target0)) 0 =
  Some {| type := "heading"; text := "Introduction" |}.
Proof.
  apply (first_matching_line_gives_the_role
           Uploads.answer1 (target_content Examples.target0) 0
           {| type := "paragraph"; text := "Introduction" |}
           ["Here is the result"] ["the rest is body"]
           "INTRODUCTION is a Heading").
  - reflexivity.
  - reflexivity.
  - intros l [<- | []]. reflexivity.
  - reflexivity.
Defined.

Lemma unmatched_block_takes_the_role_of_its_line_witness :
  nth_error (classify_paragraphs Uploads.answer1
               (target_content Examples.target0)) 1 =
  Some {| type := "heading"; text := "This report covers the year." |}.
Proof.
  apply (unmatched_block_takes_the_role_of_its_line
           Uploads.answer1 (target_content Examples.target0) 1
           {| type := "paragraph"; text := "This report covers the year." |}
           "INTRODUCTION is a Heading").
  - reflexivity.
  - intros l [<- | [<- | [<- | []]]]; reflexivity.
  - reflexivity.
Defined.

Lemma heading_role_needs_a_line_saying_heading_witness :
  exists line, In line (split_lines Examples.answer0) /\
               mentions_heading line = true.
Proof.
  apply (heading_role_needs_a_line_saying_heading
           Examples.answer0 (target_content Examples.target0) 0
           {| type := "heading"; text := "Introduction" |});
    reflexivity.
Defined.

Lemma blocks_with_the_same_prefix_get_the_same_role_witness :
  type (classify (split_lines Uploads.answer1) 0
          {| type := "paragraph"; text := "Introduction" |}) =
  type (classify (split_lines Uploads.answer1) 2
          {| type := "paragraph"; text := "INTRODUCTION" |}).
Proof.
  apply (blocks_with_the_same_prefix_get_the_same_role
           (split_lines Uploads.answer1) 0 2 _ _
           "INTRODUCTION is a Heading").
  - reflexivity.
  - simpl. right. left. reflexivity.
  - reflexivity.
Defined.

Lemma request_names_every_block_witness :
  exists system prompt,
    request Examples.target0 = [("system", system); ("user", prompt)] /\
    contains (nl ++ "Text: This report covers the year." ++ nl)%string prompt
    = true.
Proof.
  apply (request_names_every_block Examples.target0
           {| type := "paragraph"; text := "This report covers the year." |}).
  simpl. right. left. reflexivity.
Defined.

(** ** The synthesizer *)

Lemma bind_returns {A B : Type} (x : outcome A) (f : A -> outcome B) (b : B) :
  bind x f = Returns b -> exists a, x = Returns a /\ f a = Returns b.
Proof. destruct x as [a|e]; simpl; [now exists a | discriminate]. Qed.

Lemma fmap_returns {A B : Type} (f : A -> B) (x : outcome A) (b : B) :
  fmap f x = Returns b -> exists a, x = Returns a /\ b = f a.
Proof.
  destruct x as [a|e]; simpl; [|discriminate].
  intros H. injection H as <-. now exists a.
Qed.

Ltac font_props_cases fp :=
  unfold apply_font_props, assign_font_size, store_half_points,
    validate_int_in_range;
  destruct (bold fp), (italic fp), (font_name fp) as [?n|],
    (font_size fp) as [?sz|], (color fp) as [[?rgb|?repr]|]; simpl;
  repeat match goal with
         | |- context [if ?b then _ else _] => destruct b; simpl
         end.

(** What the run is after the character formatting, when no setter
    raised. *)
Lemma apply_font_props_inv (fp : RunProps) (run r : Run) :
  apply_font_props fp run = Returns r ->
  run_text r = run_text run /\
  run_underline r = run_underline run /\
  run_bold r = match bold fp with Some b => Some b | None => run_bold run end
  /\
  run_italic r =
  match italic fp with Some b => Some b | None => run_italic run end /\
  run_font_name r =
  match font_name fp with
  | Some n => if truthy n then Some n else run_font_name run
  | None => run_font_name run
  end /\
  run_font_size r =
  match font_size fp with
  | Some size => if float_truthy size then Some (6350 * (Pt size / 6350))
                 else run_font_size run
  | None => run_font_size run
  end /\
  run_font_color r =
  match color fp with
  | Some (ColorRGB rgb) => Some rgb
  | Some (ColorOther repr) => if truthy repr then Some black
                              else run_font_color run
  | None => run_font_color run
  end.
Proof.
  font_props_cases fp; intros H; try discriminate H;
    injection H as <-; repeat split.
Qed.

Lemma apply_first_font_props_inv (ref : StyleInfo) (run r : Run) :
  apply_first_font_props ref run = Returns r ->
  match font_properties ref with
  | fp :: _ => apply_font_props fp run = Returns r
  | [] => r = run
  end.
Proof.
  unfold apply_first_font_props. destruct (font_properties ref); [|trivial].
  intros H. now injection H.
Qed.

Lemma apply_first_font_props_kept (ref : StyleInfo) (run r : Run) :
  apply_first_font_props ref run = Returns r ->
  run_text r = run_text run /\ run_underline r = run_underline run.
Proof.
  intros H. apply apply_first_font_props_inv in H.
  destruct (font_properties ref) as [|fp more].
  - subst r. now split.
  - apply apply_font_props_inv in H as (Ht & Hu & _). now split.
Qed.

Lemma apply_font_props_carries (fp : RunProps) (run r : Run) :
  apply_font_props fp run = Returns r -> carries_font_props fp r.
Proof.
  intros H. apply apply_font_props_inv in H
    as (_ & _ & Hb & Hi & Hn & Hs & Hc).
  unfold carries_font_props. repeat split.
  - intros b Hfp. now rewrite Hb, Hfp.
  - intros b Hfp. now rewrite Hi, Hfp.
  - intros n Hfp Ht. now rewrite Hn, Hfp, Ht.
  - intros size Hfp Ht. now rewrite Hs, Hfp, Ht.
  - intros rgb Hfp. now rewrite Hc, Hfp.
Qed.

Lemma apply_font_props_only (fp : RunProps) (txt : string) (r : Run) :
  apply_font_props fp (add_run txt) = Returns r -> only_from_font_props fp r.
Proof.
  intros H. apply apply_font_props_inv in H
    as (_ & Hu & Hb & Hi & Hn & Hs & Hc).
  unfold only_from_font_props. repeat split.
  - intros Hfp. now rewrite Hb, Hfp.
  - intros Hfp. now rewrite Hi, Hfp.
  - intros Hfp. now rewrite Hn, Hfp.
  - intros Hfp. now rewrite Hs, Hfp.
  - intros Hfp. now rewrite Hc, Hfp.
  - exact Hu.
Qed.

Lemma apply_font_props_forget (fp : RunProps) (run : Run) :
  apply_font_props (forget_underline fp) run = apply_font_props fp run.
Proof. reflexivity. Qed.

Lemma apply_font_props_used (fp1 fp2 : RunProps) (run : Run) :
  used_of_run fp1 = used_of_run fp2 ->
  apply_font_props fp1 run = apply_font_props fp2 run.
Proof.
  unfold used_of_run, apply_font_props. intros H.
  injection H as -> -> -> -> ->. reflexivity.
Qed.

Lemma apply_first_font_props_used (s1 s2 : StyleInfo) (run : Run) :
  option_map used_of_run (hd_error (font_properties s1)) =
  option_map used_of_run (hd_error (font_properties s2)) ->
  apply_first_font_props s1 run = apply_first_font_props s2 run.
Proof.
  unfold apply_first_font_props.
  destruct (font_properties s1) as [|fp1 ?], (font_properties s2) as [|fp2 ?];
    cbn [hd_error option_map]; intros H; try discriminate; [reflexivity|].
  apply apply_font_props_used. congruence.
Qed.

(** The character formatting does not look at the text of the run. *)
Lemma erase_text_apply_font_props (fp : RunProps) (r1 r2 : Run) :
  erase_text r1 = erase_text r2 ->
  fmap erase_text (apply_font_props fp r1) =
  fmap erase_text (apply_font_props fp r2).
Proof.
  unfold erase_text. intros H.
  destruct r1, r2; simpl in H; injection H as -> -> -> -> -> ->.
  font_props_cases fp; reflexivity.
Qed.

Lemma erase_text_first_font_props (ref : StyleInfo) (r1 r2 : Run) :
  erase_text r1 = erase_text r2 ->
  fmap erase_text (apply_first_font_props ref r1) =
  fmap erase_text (apply_first_font_props ref r2).
Proof.
  unfold apply_first_font_props.
  destruct (font_properties ref); [simpl; now intros ->|].
  apply erase_text_apply_font_props.
Qed.

(** A colour that is refused changes nothing but the colour of the run. *)
Lemma erase_color_apply_font_props (fp : RunProps) (r1 r2 : Run) :
  erase_color r1 = erase_color r2 ->
  fmap erase_color (apply_font_props fp r1) =
  fmap erase_color (apply_font_props (drop_refused_color fp) r2).
Proof.
  unfold erase_color, set_font_color. intros H.
  destruct r1, r2; simpl in H; injection H as -> -> -> -> -> ->.
  unfold drop_refused_color; simpl.
  font_props_cases fp; reflexivity.
Qed.

Lemma erase_color_first_font_props (ref : StyleInfo) (r1 r2 : Run) :
  erase_color r1 = erase_color r2 ->
  fmap erase_color (apply_first_font_props ref r1) =
  fmap erase_color (apply_first_font_props (drop_refused_colors ref) r2).
Proof.
  unfold apply_first_font_props, drop_refused_colors; simpl.
  destruct (font_properties ref); [simpl; now intros ->|].
  apply erase_color_apply_font_props.
Qed.

(** ** Paragraphs by role *)

Lemma assign_style_cases (name : string) (styles : list Style) :
  (paragraph_style name styles = true /\
   assign_style name styles = Returns (Some name)) \/
  (paragraph_style name styles = false /\
   exists e, assign_style name styles = Raises e).
Proof.
  unfold paragraph_style, assign_style.
  destruct (get_style name styles) as [style|]; [|right; eauto].
  destruct (s_type style); [left; auto | right; eauto ..].
Qed.

Lemma heading_1_or_bold_cases (doc : Document) (run : Run) :
  heading_1_or_bold doc run =
  Returns (if paragraph_style "Heading 1" (doc_styles doc)
           then (Some "Heading 1", run)
           else (None, set_font_size (Some 203200)
                         (set_bold (Some true) run))).
Proof.
  unfold heading_1_or_bold.
  destruct (assign_style_cases "Heading 1" (doc_styles doc))
    as [[-> ->] | [-> [e ->]]]; reflexivity.
Qed.

(** The heading branch without a sample always gives a paragraph. *)
Lemma heading_default_cases (doc : Document) (txt : string) :
  heading_default doc txt =
  Returns (if paragraph_style "Heading 1" (doc_styles doc)
           then {| para_style := Some "Heading 1"; para_alignment := None;
                   para_runs := [set_bold (Some true) (add_run txt)] |}
           else {| para_style := None; para_alignment := None;
                   para_runs := [set_font_size (Some 203200)
                                   (set_bold (Some true) (add_run txt))] |}).
Proof.
  unfold heading_default.
  destruct (assign_style_cases "Heading 1" (doc_styles doc))
    as [[-> ->] | [-> [e ->]]]; reflexivity.
Qed.

Lemma heading_from_reference_inv
    (doc : Document) (ref_heading : StyleInfo) (txt : string)
    (p : Paragraph) :
  heading_from_reference doc ref_heading txt = Returns p ->
  exists run,
    para_runs p = [run] /\
    apply_first_font_props ref_heading (heading_base doc ref_heading txt)
    = Returns run /\
    para_alignment p = alignment ref_heading /\
    para_style p =
    (if style_available ref_heading doc then style_name ref_heading
     else if paragraph_style "Heading 1" (doc_styles doc)
          then Some "Heading 1" else None).
Proof.
  unfold heading_from_reference, heading_base. intros H.
  apply bind_returns in H as ([style base] & Hstyled & H).
  apply bind_returns in H as (run & Hrun & H).
  injection H as <-. simpl in *. exists run.
  assert (Ha : match alignment ref_heading with
               | Some a => Some a
               | None => None
               end = alignment ref_heading)
    by (now destruct (alignment ref_heading)).
  rewrite Ha. clear Ha.
  destruct (style_available ref_heading doc) eqn:Hav.
  - apply bind_returns in Hstyled as (s & Hs & Hstyled).
    injection Hstyled as <- <-.
    unfold style_available in Hav.
    destruct (style_name ref_heading) as [name|]; [|discriminate].
    destruct (assign_style_cases name (doc_styles doc))
      as [[_ Hok] | [_ [e He]]]; rewrite Hs in *; [|discriminate].
    injection Hok as ->. now repeat split.
  - rewrite heading_1_or_bold_cases in Hstyled.
    destruct (paragraph_style "Heading 1" (doc_styles doc));
      injection Hstyled as <- <-; now repeat split.
Qed.

Lemma body_from_reference_inv
    (ref_para : StyleInfo) (txt : string) (p : Paragraph) :
  body_from_reference ref_para txt = Returns p ->
  exists run,
    para_runs p = [run] /\
    apply_first_font_props ref_para (add_run txt) = Returns run /\
    para_alignment p = alignment ref_para /\
    para_style p = None.
Proof.
  unfold body_from_reference. intros H.
  apply bind_returns in H as (run & Hrun & H). injection H as <-.
  exists run. simpl. repeat split; [exact Hrun|].
  now destruct (alignment ref_para).
Qed.

Lemma heading_base_kept (doc : Document) (ref : StyleInfo) (txt : string) :
  run_text (heading_base doc ref txt) = txt /\
  run_underline (heading_base doc ref txt) = None /\
  run_italic (heading_base doc ref txt) = None /\
  run_font_color (heading_base doc ref txt) = None /\
  run_font_name (heading_base doc ref txt) = None /\
  erase_text (heading_base doc ref txt) = erase_text (heading_base doc ref "").
Proof.
  unfold heading_base.
  destruct (style_available ref doc);
    [|destruct (paragraph_style "Heading 1" (doc_styles doc))];
    repeat split.
Qed.

(** The paragraph of an item has the text of the item. *)
Lemma format_item_text (fmt : Formatting) (doc : Document) (item : Item)
    (p : Paragraph) :
  format_item fmt doc item = Returns p -> para_text p = text item.
Proof.
  unfold format_item, para_text.
  destruct (String.eqb (type item) "heading").
  - destruct (headings fmt) as [|h hs].
    + rewrite heading_default_cases. intros H. injection H as <-.
      now destruct (paragraph_style "Heading 1" (doc_styles doc)).
    + intros H. apply heading_from_reference_inv in H
        as (run & -> & Hrun & _).
      apply apply_first_font_props_kept in Hrun as [Ht _]. simpl.
      rewrite Ht. apply heading_base_kept.
  - destruct (paragraphs fmt) as [|b bs].
    + intros H. injection H as <-. unfold body_default.
      now destruct (text item).
    + intros H. apply body_from_reference_inv in H as (run & -> & Hrun & _).
      apply apply_first_font_props_kept in Hrun as [Ht _]. simpl.
      now rewrite Ht.
Qed.

(** The paragraph of an item has one run, with the text of the item and
    without underline, whenever the text is not empty. *)
Lemma format_item_one_run (fmt : Formatting) (doc : Document) (item : Item)
    (p : Paragraph) :
  truthy (text item) = true ->
  format_item fmt doc item = Returns p ->
  exists run,
    para_runs p = [run] /\
    run_text run = text item /\
    run_underline run = None.
Proof.
  intros Ht. unfold format_item.
  destruct (String.eqb (type item) "heading").
  - destruct (headings fmt) as [|h hs].
    + rewrite heading_default_cases. intros H. injection H as <-.
      destruct (paragraph_style "Heading 1" (doc_styles doc));
        eexists; repeat split.
    + intros H. apply heading_from_reference_inv in H
        as (run & -> & Hrun & _).
      apply apply_first_font_props_kept in Hrun as [Ht' Hu].
      exists run. split; [reflexivity|]. rewrite Ht', Hu.
      destruct (heading_base_kept doc h (text item)) as (-> & -> & _).
      now split.
  - destruct (paragraphs fmt) as [|b bs].
    + intros H. injection H as <-. unfold body_default. rewrite Ht.
      eexists; repeat split.
    + intros H. apply body_from_reference_inv in H as (run & -> & Hrun & _).
      apply apply_first_font_props_kept in Hrun as [Ht' Hu].
      exists run. rewrite Ht', Hu. now repeat split.
Qed.

(** The paragraph of an item depends on the document through its styles. *)
Lemma format_item_styles (fmt : Formatting) (d1 d2 : Document) (item : Item) :
  doc_styles d1 = doc_styles d2 ->
  format_item fmt d1 item = format_item fmt d2 item.
Proof.
  intros H. unfold format_item, heading_from_reference, heading_default,
    heading_1_or_bold, style_available. now rewrite H.
Qed.

(** ** The document *)

Lemma Forall2_nth_error_l {A B : Type} (R : A -> B -> Prop)
    (l1 : list A) (l2 : list B) :
  Forall2 R l1 l2 ->
  forall i a, nth_error l1 i = Some a ->
              exists b, nth_error l2 i = Some b /\ R a b.
Proof.
  induction 1 as [|x y l1 l2 Hxy _ IH]; intros [|i] a H; simpl in *;
    try discriminate.
  - injection H as <-. now exists y.
  - now apply IH.
Qed.

Lemma Forall2_in_r {A B : Type} (R : A -> B -> Prop)
    (l1 : list A) (l2 : list B) :
  Forall2 R l1 l2 ->
  forall b, In b l2 -> exists a, In a l1 /\ R a b.
Proof.
  induction 1 as [|x y l1 l2 Hxy _ IH]; intros b Hb; [contradiction|].
  destruct Hb as [<- | Hb]; [exists x; split; [now left | exact Hxy]|].
  destruct (IH b Hb) as (a & Ha & Hab). exists a. split; [now right|exact Hab].
Qed.

(** The loop over the classified blocks, when no block raised: one paragraph
    per block was added, and nothing else of the document changed. *)
Lemma append_all_inv (fmt : Formatting) (items : list Item) :
  forall doc out,
    append_all fmt items doc = Returns out ->
    exists ps,
      Forall2 (fun item p => format_item fmt doc item = Returns p) items ps /\
      doc_paragraphs out = doc_paragraphs doc ++ ps /\
      doc_styles out = doc_styles doc /\
      doc_sections out = doc_sections doc /\
      doc_tables out = doc_tables doc.
Proof.
  induction items as [|item items IH]; intros doc out H; simpl in H.
  - injection H as <-. exists []. rewrite app_nil_r. repeat split.
    constructor.
  - apply bind_returns in H as (doc' & Hitem & H).
    unfold append_formatted in Hitem.
    apply bind_returns in Hitem as (p & Hp & Hitem). injection Hitem as <-.
    destruct (IH _ _ H) as (ps & Hps & Hpar & Hst & Hsec & Htab).
    exists (p :: ps). simpl in *. rewrite Hpar, <- app_assoc.
    repeat split; try assumption.
    constructor; [exact Hp|].
    eapply Forall2_impl; [|exact Hps]. intros it q Hq.
    rewrite <- Hq. now apply format_item_styles.
Qed.

Lemma append_all_pointwise (f1 f2 : Formatting) (items : list Item) :
  (forall doc item, format_item f1 doc item = format_item f2 doc item) ->
  forall doc, append_all f1 items doc = append_all f2 items doc.
Proof.
  intros H. induction items as [|item items IH]; intros doc; simpl;
    [reflexivity|].
  unfold append_formatted. rewrite H.
  destruct (format_item f2 doc item); simpl; [apply IH | reflexivity].
Qed.

Lemma for_each_inv {A B : Type} (f : A -> outcome B) (l : list A) :
  forall bs, for_each f l = Returns bs ->
             Forall2 (fun a b => f a = Returns b) l bs.
Proof.
  induction l as [|a l IH]; intros bs H; simpl in H.
  - injection H as <-. constructor.
  - apply bind_returns in H as (b & Hb & H).
    apply bind_returns in H as (bs' & Hbs & H). injection H as <-.
    constructor; [exact Hb | now apply IH].
Qed.

Lemma set_document_properties_inv (o : OverallStyle) (doc nd : Document) :
  set_document_properties o doc = Returns nd ->
  doc_styles nd = doc_styles doc /\
  doc_paragraphs nd = doc_paragraphs doc /\
  doc_tables nd = doc_tables doc /\
  match margins o with
  | Some m => Forall2 (fun old new => set_margins m old = Returns new)
                      (doc_sections doc) (doc_sections nd)
  | None => doc_sections nd = doc_sections doc
  end.
Proof.
  unfold set_document_properties. destruct (margins o) as [m|].
  - intros H. apply bind_returns in H as (sections & Hs & H).
    injection H as <-. simpl. repeat split. now apply for_each_inv.
  - intros H. injection H as <-. now repeat split.
Qed.

Lemma set_document_properties_margins (o1 o2 : OverallStyle) (doc : Document) :
  margins o1 = margins o2 ->
  set_document_properties o1 doc = set_document_properties o2 doc.
Proof. unfold set_document_properties. now intros ->. Qed.

Lemma target_content_texts (target_doc : Document) :
  map text (target_content target_doc) =
  filter non_blank (map para_text (doc_paragraphs target_doc)).
Proof.
  unfold target_content. rewrite map_map. simpl.
  induction (doc_paragraphs target_doc) as [|p ps IH]; simpl;
    [reflexivity|].
  destruct (non_blank (para_text p)); simpl; now rewrite IH.
Qed.

Lemma non_blank_truthy (s : string) : non_blank s = true -> truthy s = true.
Proof. destruct s; [discriminate | reflexivity]. Qed.

Lemma target_content_non_blank (target_doc : Document) (item : Item) :
  In item (target_content target_doc) -> non_blank (text item) = true.
Proof.
  unfold target_content. intros H.
  apply in_map_iff in H as (para & <- & Hp).
  now apply filter_In in Hp as [_ Hp].
Qed.

Lemma classified_non_blank (classifications : string)
    (target_doc : Document) (item : Item) :
  In item (classify_paragraphs classifications (target_content target_doc)) ->
  non_blank (text item) = true.
Proof.
  intros H. apply (in_map text) in H.
  unfold classify_paragraphs in H. rewrite classify_from_texts in H.
  apply in_map_iff in H as (it & <- & Hit).
  now apply (target_content_non_blank target_doc).
Qed.

Lemma formatted_texts (fmt : Formatting) (doc : Document)
    (items : list Item) (ps : list Paragraph) :
  Forall2 (fun item p => format_item fmt doc item = Returns p) items ps ->
  map para_text ps = map text items.
Proof.
  induction 1 as [|item p items ps Hp _ IH]; simpl; [reflexivity|].
  now rewrite (format_item_text _ _ _ _ Hp), IH.
Qed.

Section SynthesisProperties.

Variable template_styles : list Style.
Variable template_sections : list Section_.

(** A returned document: the margins were accepted, the oracle answered,
    and every classified block gave its paragraph without an exception. *)
Lemma synthesize_inv
    (target_doc : Document) (fmt : Formatting) (client : OpenAI)
    (doc : Document) (errors : list string) :
  apply_formatting_to_docx template_styles template_sections
    target_doc fmt client = Returns (Some doc, errors) ->
  errors = [] /\
  exists classifications nd,
    client (request target_doc) = Content classifications /\
    set_document_properties (overall_style fmt)
      (new_Document template_styles template_sections) = Returns nd /\
    Forall2 (fun item p =>
               format_item fmt
                 (new_Document template_styles template_sections) item
               = Returns p)
            (classify_paragraphs classifications (target_content target_doc))
            (doc_paragraphs doc) /\
    doc_styles doc = template_styles /\
    doc_tables doc = [] /\
    doc_sections doc = doc_sections nd.
Proof.
  unfold apply_formatting_to_docx, request. intros H.
  apply bind_returns in H as (nd & Hnd & H).
  destruct (client (messages (build_prompt (target_content target_doc))))
    as [c|e]; [|discriminate].
  destruct (append_all fmt _ nd) as [out|e] eqn:Hout; [|discriminate].
  injection H as <- <-. split; [reflexivity|]. exists c, nd.
  destruct (append_all_inv _ _ _ _ Hout) as (ps & Hps & Hpar & Hst & Hsec & Ht).
  destruct (set_document_properties_inv _ _ _ Hnd) as (Hst' & Hpar' & Ht' & _).
  rewrite Hpar' in Hpar. simpl in Hpar. rewrite Hpar.
  split; [reflexivity|]. split; [exact Hnd|]. split.
  { eapply Forall2_impl; [|exact Hps]. intros it q Hq.
    rewrite <- Hq. apply format_item_styles. now rewrite Hst'. }
  split; [now rewrite Hst, Hst'|].
  split; [now rewrite Ht, Ht' | exact Hsec].
Qed.

(** What the function does once the [try] is reached. *)
Lemma synthesize_prepared
    (target_doc : Document) (fmt : Formatting) (client : OpenAI)
    (nd : Document) :
  set_document_properties (overall_style fmt)
    (new_Document template_styles template_sections) = Returns nd ->
  apply_formatting_to_docx template_styles template_sections
    target_doc fmt client =
  Returns
    match client (request target_doc) with
    | Content classifications =>
        match append_all fmt (classify_paragraphs classifications
                                (target_content target_doc)) nd with
        | Returns doc => (Some doc, [])
        | Raises e => (None, [openai_error e])
        end
    | APIError e => (None, [openai_error e])
    end.
Proof. unfold apply_formatting_to_docx, request. now intros ->. Qed.

Lemma synthesize_pointwise
    (target_doc : Document) (f1 f2 : Formatting) (client : OpenAI) :
  margins (overall_style f1) = margins (overall_style f2) ->
  (forall doc item, format_item f1 doc item = format_item f2 doc item) ->
  apply_formatting_to_docx template_styles template_sections
    target_doc f1 client =
  apply_formatting_to_docx template_styles template_sections
    target_doc f2 client.
Proof.
  intros Hm Hf. unfold apply_formatting_to_docx.
  rewrite (set_document_properties_margins _ _ _ Hm).
  destruct (set_document_properties (overall_style f2) _) as [nd|e];
    [|reflexivity].
  simpl. destruct (client _); [|reflexivity].
  now rewrite (append_all_pointwise f1 f2 _ Hf).
Qed.

End SynthesisProperties.

Lemma format_item_forget (fmt : Formatting) (doc : Document) (item : Item) :
  format_item (forget_unused fmt) doc item = format_item fmt doc item.
Proof.
  unfold format_item, forget_unused; simpl.
  destruct (String.eqb (type item) "heading").
  - destruct (headings fmt) as [|h hs]; simpl; [reflexivity|].
    unfold heading_from_reference, style_available, apply_first_font_props;
      simpl.
    destruct (font_properties h); reflexivity.
  - destruct (paragraphs fmt) as [|b bs]; simpl; [reflexivity|].
    unfold body_from_reference, apply_first_font_props; simpl.
    destruct (font_properties b); reflexivity.
Qed.

Lemma format_item_set_headings
    (fmt : Formatting) (h0 : StyleInfo) (rest rest' : list StyleInfo)
    (doc : Document) (item : Item) :
  headings fmt = h0 :: rest ->
  format_item (set_headings (h0 :: rest') fmt) doc item =
  format_item fmt doc item.
Proof.
  intros H. unfold format_item, set_headings; simpl. now rewrite H.
Qed.

(** A refused colour changes the paragraph of an item in the colour of its
    run only, and neither raises nor hides an exception. *)
Lemma format_item_refused_color
    (fmt : Formatting) (d1 d2 : Document) (item : Item) :
  doc_styles d1 = doc_styles d2 ->
  fmap erase_colors (format_item fmt d1 item) =
  fmap erase_colors (format_item (without_refused_colors fmt) d2 item).
Proof.
  intros Hst. rewrite (format_item_styles _ d1 d2 item Hst).
  unfold format_item, without_refused_colors; simpl.
  destruct (String.eqb (type item) "heading").
  - destruct (headings fmt) as [|h hs]; simpl; [reflexivity|].
    unfold heading_from_reference.
    change (style_available (drop_refused_colors h) d2)
      with (style_available h d2).
    change (style_name (drop_refused_colors h)) with (style_name h).
    change (alignment (drop_refused_colors h)) with (alignment h).
    match goal with
    | |- context [bind ?styled _] => destruct styled as [[style base]|e]
    end; simpl; [|reflexivity].
    pose proof (erase_color_first_font_props h base base eq_refl) as H.
    destruct (apply_first_font_props h base) as [r|e],
        (apply_first_font_props (drop_refused_colors h) base) as [r'|e'];
      cbn [fmap bind] in *; try discriminate H.
    + assert (Hr : erase_color r = erase_color r') by congruence.
      unfold erase_colors.
      cbn [para_style para_alignment para_runs map]. now rewrite Hr.
    + congruence.
  - destruct (paragraphs fmt) as [|b bs]; simpl; [reflexivity|].
    unfold body_from_reference.
    change (alignment (drop_refused_colors b)) with (alignment b).
    pose proof (erase_color_first_font_props b (add_run (text item))
                  (add_run (text item)) eq_refl) as H.
    destruct (apply_first_font_props b _) as [r|e],
        (apply_first_font_props (drop_refused_colors b) _) as [r'|e'];
      cbn [fmap bind] in *; try discriminate H.
    + assert (Hr : erase_color r = erase_color r') by congruence.
      unfold erase_colors.
      cbn [para_style para_alignment para_runs map]. now rewrite Hr.
    + congruence.
Qed.

Lemma append_all_refused_color (fmt : Formatting) (items : list Item) :
  forall d1 d2,
    without_colors d1 = without_colors d2 ->
    fmap without_colors (append_all fmt items d1) =
    fmap without_colors
         (append_all (without_refused_colors fmt) items d2).
Proof.
  induction items as [|item items IH]; intros d1 d2 H; simpl.
  - now rewrite H.
  - assert (Hst : doc_styles d1 = doc_styles d2)
      by (apply (f_equal doc_styles) in H; exact H).
    pose proof (format_item_refused_color fmt d1 d2 item Hst) as Hitem.
    unfold append_formatted.
    destruct (format_item fmt d1 item) as [p|e],
        (format_item (without_refused_colors fmt) d2 item) as [p'|e'];
      cbn [fmap bind] in *; try discriminate Hitem; [|congruence].
    assert (Hp : erase_colors p = erase_colors p') by congruence.
    apply IH. unfold without_colors in *.
    assert (Hps : map erase_colors (doc_paragraphs d1) =
                  map erase_colors (doc_paragraphs d2)) by congruence.
    assert (Ht : doc_tables d1 = doc_tables d2) by congruence.
    assert (Hs : doc_sections d1 = doc_sections d2) by congruence.
    unfold add_paragraph; cbn [doc_paragraphs doc_tables doc_sections
                                 doc_styles].
    now rewrite !map_app, Hps, Ht, Hs, Hst; cbn [map]; rewrite Hp.
Qed.

Section Outcomes.

Variable template_styles : list Style.
Variable template_sections : list Section_.

(** C3. Whatever the oracle answers, the texts of the paragraphs of a
    synthesized document are the texts of the non-blank paragraphs of the
    target document, in the same order. *)
Theorem synthesized_texts_are_target_non_blank_texts
    (target_doc : Document) (fmt : Formatting) (client : OpenAI)
    (doc : Document) (errors : list string) :
  apply_formatting_to_docx template_styles template_sections
    target_doc fmt client = Returns (Some doc, errors) ->
  map para_text (doc_paragraphs doc) =
  filter non_blank (map para_text (doc_paragraphs target_doc)).
Proof.
  intros H. apply synthesize_inv in H as (_ & c & nd & _ & _ & Hps & _).
  rewrite (formatted_texts _ _ _ _ Hps). unfold classify_paragraphs.
  rewrite classify_from_texts. apply target_content_texts.
Qed.

(** C6. When the call to the oracle raises, no document is returned and
    exactly one error is reported. A returned document is never partial:
    it comes without any reported error and holds every block. Whenever
    no document is returned, exactly one error is reported. *)
Theorem oracle_failure_yields_no_document
    (target_doc : Document) (fmt : Formatting) (client : OpenAI) :
  (forall e new_doc,
      set_document_properties (overall_style fmt)
        (new_Document template_styles template_sections) = Returns new_doc ->
      client (request target_doc) = APIError e ->
      apply_formatting_to_docx template_styles template_sections
        target_doc fmt client =
      Returns (None, [("Error using OpenAI API: " ++ e)%string])) /\
  (forall doc errors,
      apply_formatting_to_docx template_styles template_sections
        target_doc fmt client = Returns (Some doc, errors) ->
      errors = [] /\
      map para_text (doc_paragraphs doc) =
      map text (target_content target_doc)) /\
  (forall errors,
      apply_formatting_to_docx template_styles template_sections
        target_doc fmt client = Returns (None, errors) ->
      exists e, errors = [("Error using OpenAI API: " ++ e)%string]).
Proof.
  split; [|split].
  - intros e nd Hnd Hc.
    rewrite (synthesize_prepared _ _ _ _ _ _ Hnd). now rewrite Hc.
  - intros doc errors H.
    apply synthesize_inv in H as (-> & c & nd & _ & _ & Hps & _).
    split; [reflexivity|].
    rewrite (formatted_texts _ _ _ _ Hps). apply classify_from_texts.
  - intros errors H. unfold apply_formatting_to_docx in H.
    apply bind_returns in H as (nd & _ & H).
    destruct (client _) as [c|e].
    + destruct (append_all fmt _ nd) as [out|e]; [discriminate|].
      injection H as <-. now exists e.
    + injection H as <-. now exists e.
Qed.

(** C10. Two profiles that differ only in the default font name, the default
    font size, the underline flags of the runs and the table samples give the
    same result of synthesis, for the same target and the same oracle. *)
Theorem synthesis_ignores_unused_profile_fields
    (target_doc : Document) (fmt1 fmt2 : Formatting) (client : OpenAI) :
  forget_unused fmt1 = forget_unused fmt2 ->
  apply_formatting_to_docx template_styles template_sections
    target_doc fmt1 client =
  apply_formatting_to_docx template_styles template_sections
    target_doc fmt2 client.
Proof.
  intros H.
  assert (Hf : forall fmt,
             apply_formatting_to_docx template_styles template_sections
               target_doc (forget_unused fmt) client =
             apply_formatting_to_docx template_styles template_sections
               target_doc fmt client).
  { intros fmt. apply synthesize_pointwise; [reflexivity|].
    intros doc item. apply format_item_forget. }
  rewrite <- (Hf fmt1), <- (Hf fmt2). now rewrite H.
Qed.

(** C7, amended. A colour the run refuses never aborts synthesis and is
    never reported: the result is the one synthesis gives when that colour
    is absent from the profile, up to the colours of the runs; so a
    document that is returned comes without any error and holds every
    block. The run of a block whose sample has such a colour is not left
    without a colour: it is black. *)
Theorem incompatible_color_is_skipped_silently
    (target_doc : Document) (fmt : Formatting) (client : OpenAI) :
  result_without_colors
    (apply_formatting_to_docx template_styles template_sections
       target_doc fmt client) =
  result_without_colors
    (apply_formatting_to_docx template_styles template_sections
       target_doc (without_refused_colors fmt) client) /\
  (forall doc' errors',
      apply_formatting_to_docx template_styles template_sections
        target_doc (without_refused_colors fmt) client
      = Returns (Some doc', errors') ->
      exists doc,
        apply_formatting_to_docx template_styles template_sections
          target_doc fmt client = Returns (Some doc, []) /\
        without_colors doc = without_colors doc' /\
        map para_text (doc_paragraphs doc) =
        map text (target_content target_doc)) /\
  (forall classifications doc errors i item sample fp more repr,
      client (request target_doc) = Content classifications ->
      apply_formatting_to_docx template_styles template_sections
        target_doc fmt client = Returns (Some doc, errors) ->
      nth_error (classify_paragraphs classifications
                   (target_content target_doc)) i = Some item ->
      applied_sample fmt item = Some sample ->
      font_properties sample = fp :: more ->
      color fp = Some (ColorOther repr) ->
      truthy repr = true ->
      exists p run,
        nth_error (doc_paragraphs doc) i = Some p /\
        para_runs p = [run] /\
        run_text run = text item /\
        run_font_color run = Some black).
Proof.
  assert (Heq : result_without_colors
                  (apply_formatting_to_docx template_styles template_sections
                     target_doc fmt client) =
                result_without_colors
                  (apply_formatting_to_docx template_styles template_sections
                     target_doc (without_refused_colors fmt) client)).
  { unfold apply_formatting_to_docx.
    change (overall_style (without_refused_colors fmt))
      with (overall_style fmt).
    destruct (set_document_properties (overall_style fmt) _) as [nd|e];
      [|reflexivity].
    simpl. destruct (client _) as [c|e]; [|reflexivity].
    pose proof (append_all_refused_color fmt
                  (classify_paragraphs c (target_content target_doc))
                  nd nd eq_refl) as H.
    destruct (append_all fmt _ nd) as [d|e],
        (append_all (without_refused_colors fmt) _ nd) as [d'|e'];
      cbn [fmap bind] in H; try discriminate H.
    - assert (Hd : without_colors d = without_colors d') by congruence.
      unfold result_without_colors; simpl. now rewrite Hd.
    - injection H as ->. reflexivity. }
  split; [exact Heq|]. split.
  - intros doc' errors' H'. rewrite H' in Heq.
    destruct (apply_formatting_to_docx template_styles template_sections
                target_doc fmt client) as [[[doc|] errors]|e] eqn:H;
      unfold result_without_colors in Heq; cbn [fmap bind fst snd option_map]
        in Heq; try discriminate Heq.
    assert (Hdoc : without_colors doc = without_colors doc') by congruence.
    destruct (synthesize_inv _ _ _ _ _ _ _ H)
      as (-> & c & nd & _ & _ & Hps & _).
    exists doc. split; [reflexivity|]. split; [exact Hdoc|].
    rewrite (formatted_texts _ _ _ _ Hps). apply classify_from_texts.
  - intros c doc errors i item sample fp more repr Hc H Hi Hs Hfp Hcol Hrepr.
    apply synthesize_inv in H as (_ & c' & nd & Hc' & _ & Hps & _).
    rewrite Hc in Hc'. injection Hc' as <-.
    destruct (Forall2_nth_error_l _ _ _ Hps i item Hi) as (p & Hp & Hfmt).
    unfold applied_sample in Hs. unfold format_item in Hfmt.
    assert (Hrun : exists run base,
               para_runs p = [run] /\ run_text base = text item /\
               apply_first_font_props sample base = Returns run).
    { destruct (String.eqb (type item) "heading").
      - destruct (headings fmt) as [|h hs]; [discriminate Hs|].
        injection Hs as ->.
        destruct (heading_from_reference_inv _ _ _ _ Hfmt)
          as (run & Hruns & Hrun & _).
        exists run, (heading_base
                       (new_Document template_styles template_sections)
                       sample (text item)).
        split; [exact Hruns|]. split; [|exact Hrun].
        apply heading_base_kept.
      - destruct (paragraphs fmt) as [|b bs]; [discriminate Hs|].
        injection Hs as ->.
        destruct (body_from_reference_inv _ _ _ Hfmt)
          as (run & Hruns & Hrun & _).
        exists run, (add_run (text item)).
        split; [exact Hruns|]. split; [reflexivity | exact Hrun]. }
    destruct Hrun as (run & base & Hruns & Hbase & Hrun).
    exists p, run. split; [exact Hp|]. split; [exact Hruns|].
    apply apply_first_font_props_inv in Hrun. rewrite Hfp in Hrun.
    apply apply_font_props_inv in Hrun as (Ht & _ & _ & _ & _ & _ & Hcolor).
    split; [now rewrite Ht|]. now rewrite Hcolor, Hcol, Hrepr.
Qed.

End Outcomes.

(** ** Styling by role *)

(** The styling of a reference heading does not depend on the block. *)
Lemma heading_from_reference_styling
    (doc : Document) (ref_heading : StyleInfo) (txt : string)
    (p : Paragraph) :
  heading_from_reference doc ref_heading txt = Returns p ->
  heading_styling (doc_styles doc) ref_heading = Returns (styling p).
Proof.
  intros H. unfold heading_styling.
  set (d := {| doc_paragraphs := []; doc_tables := []; doc_sections := [];
               doc_styles := doc_styles doc |}).
  assert (Hav : style_available ref_heading d = style_available ref_heading doc)
    by reflexivity.
  revert H. unfold heading_from_reference, heading_1_or_bold. rewrite Hav.
  change (doc_styles d) with (doc_styles doc).
  destruct (style_available ref_heading doc).
  - destruct (assign_style _ (doc_styles doc)) as [style|e];
      cbn [bind fst snd]; [|discriminate].
    pose proof (erase_text_first_font_props ref_heading
                  (add_run txt) (add_run "") eq_refl) as He.
    destruct (apply_first_font_props ref_heading (add_run txt)) as [r|e],
        (apply_first_font_props ref_heading (add_run "")) as [r'|e'];
      cbn [fmap bind] in *; try discriminate.
    intros H. injection H as <-. unfold styling; cbn.
    assert (Hr : erase_text r = erase_text r') by congruence.
    now rewrite Hr.
  - destruct (assign_style "Heading 1" (doc_styles doc)) as [style|e];
      cbn [bind fst snd assign_font_size store_half_points
             validate_int_in_range Pt].
    + pose proof (erase_text_first_font_props ref_heading
                    (add_run txt) (add_run "") eq_refl) as He.
      destruct (apply_first_font_props ref_heading (add_run txt)) as [r|e],
          (apply_first_font_props ref_heading (add_run "")) as [r'|e'];
        cbn [fmap bind] in *; try discriminate.
      intros H. injection H as <-. unfold styling; cbn.
      assert (Hr : erase_text r = erase_text r') by congruence.
      now rewrite Hr.
    + simpl.
      pose proof (erase_text_first_font_props ref_heading
                    (set_font_size (Some 203200)
                       (set_bold (Some true) (add_run txt)))
                    (set_font_size (Some 203200)
                       (set_bold (Some true) (add_run ""))) eq_refl) as He.
      destruct (apply_first_font_props ref_heading
                  (set_font_size (Some 203200)
                     (set_bold (Some true) (add_run txt)))) as [r|e'],
          (apply_first_font_props ref_heading
             (set_font_size (Some 203200)
                (set_bold (Some true) (add_run "")))) as [r'|e''];
        cbn [fmap bind] in *; try discriminate.
      intros H. injection H as <-. unfold styling; cbn.
      assert (Hr : erase_text r = erase_text r') by congruence.
      now rewrite Hr.
Qed.

Section FirstSample.

Variable template_styles : list Style.
Variable template_sections : list Section_.

(** C1. With a non-empty list of heading samples, every block classified
    as heading in a synthesized document has the styling of the first
    sample: its alignment, its style name when the new document has that
    style, and the character properties of its first run. The styling is
    one and the same for all heading blocks of the run, and the samples
    after the first have no influence on the result. *)
Theorem heading_blocks_receive_first_heading_sample
    (target_doc : Document) (fmt : Formatting) (client : OpenAI)
    (classifications : string) (h0 : StyleInfo) (rest : list StyleInfo)
    (doc : Document) (errors : list string) :
  headings fmt = h0 :: rest ->
  client (request target_doc) = Content classifications ->
  apply_formatting_to_docx template_styles template_sections
    target_doc fmt client = Returns (Some doc, errors) ->
  (forall i item,
      nth_error (classify_paragraphs classifications
                   (target_content target_doc)) i = Some item ->
      type item = "heading" ->
      exists p run,
        nth_error (doc_paragraphs doc) i = Some p /\
        para_runs p = [run] /\
        run_text run = text item /\
        para_alignment p = alignment h0 /\
        (style_available h0
           (new_Document template_styles template_sections) = true ->
         para_style p = style_name h0) /\
        (forall fp more, font_properties h0 = fp :: more ->
                         carries_font_props fp run) /\
        heading_styling template_styles h0 = Returns (styling p)) /\
  (forall rest',
      apply_formatting_to_docx template_styles template_sections
        target_doc (set_headings (h0 :: rest') fmt) client =
      apply_formatting_to_docx template_styles template_sections
        target_doc fmt client).
Proof.
  intros Hh Hc H. split.
  - apply synthesize_inv in H as (_ & c & nd & Hc' & _ & Hps & _).
    rewrite Hc in Hc'. injection Hc' as <-.
    intros i item Hi Htype.
    destruct (Forall2_nth_error_l _ _ _ Hps i item Hi) as (p & Hp & Hfmt).
    unfold format_item in Hfmt. rewrite Htype, Hh in Hfmt. simpl in Hfmt.
    pose proof (heading_from_reference_styling _ _ _ _ Hfmt) as Hstyling.
    destruct (heading_from_reference_inv _ _ _ _ Hfmt)
      as (run & Hruns & Hrun & Halign & Hstyle).
    exists p, run. split; [exact Hp|]. split; [exact Hruns|].
    destruct (apply_first_font_props_kept _ _ _ Hrun) as [Ht _].
    split; [rewrite Ht; apply heading_base_kept|].
    split; [exact Halign|].
    split; [intros Hav; now rewrite Hstyle, Hav|].
    split; [|exact Hstyling].
    intros fp more Hfp. apply apply_first_font_props_inv in Hrun.
    rewrite Hfp in Hrun. now apply apply_font_props_carries in Hrun.
  - intros rest'. apply synthesize_pointwise; [reflexivity|].
    intros d item. now apply (format_item_set_headings fmt h0 rest rest').
Qed.

(** C5, amended. With a non-empty list of paragraph samples, every block
    classified as body in a synthesized document has the alignment of the
    first sample and the character properties of its first run, each one
    only if present; the style name of the sample is not applied, the
    paragraph has no explicit style. With an empty list the paragraph is
    plain: no style, no alignment, and one run that has nothing set but the
    text. *)
Theorem body_blocks_receive_first_paragraph_sample_without_style
    (target_doc : Document) (fmt : Formatting) (client : OpenAI)
    (classifications : string) (doc : Document) (errors : list string) :
  client (request target_doc) = Content classifications ->
  apply_formatting_to_docx template_styles template_sections
    target_doc fmt client = Returns (Some doc, errors) ->
  forall i item,
    nth_error (classify_paragraphs classifications
                 (target_content target_doc)) i = Some item ->
    type item <> "heading" ->
    exists p,
      nth_error (doc_paragraphs doc) i = Some p /\
      para_text p = text item /\
      para_style p = None /\
      (paragraphs fmt = [] ->
       para_alignment p = None /\
       para_runs p =
       [{| run_text := text item; run_bold := None; run_italic := None;
           run_underline := None; run_font_name := None;
           run_font_size := None; run_font_color := None |}]) /\
      (forall p0 rest,
          paragraphs fmt = p0 :: rest ->
          exists run,
            para_runs p = [run] /\
            run_text run = text item /\
            para_alignment p = alignment p0 /\
            (forall fp more, font_properties p0 = fp :: more ->
                             carries_font_props fp run /\
                             only_from_font_props fp run) /\
            (font_properties p0 = [] ->
             run = {| run_text := text item; run_bold := None;
                      run_italic := None; run_underline := None;
                      run_font_name := None; run_font_size := None;
                      run_font_color := None |})).
Proof.
  intros Hc H i item Hi Htype.
  apply synthesize_inv in H as (_ & c & nd & Hc' & _ & Hps & _).
  rewrite Hc in Hc'. injection Hc' as <-.
  destruct (Forall2_nth_error_l _ _ _ Hps i item Hi) as (p & Hp & Hfmt).
  exists p. split; [exact Hp|].
  split; [exact (format_item_text _ _ _ _ Hfmt)|].
  assert (Hnb : truthy (text item) = true).
  { apply non_blank_truthy, (classified_non_blank classifications target_doc).
    eapply nth_error_In, Hi. }
  assert (Hne : String.eqb (type item) "heading" = false)
    by (now apply String.eqb_neq).
  unfold format_item in Hfmt. rewrite Hne in Hfmt.
  destruct (paragraphs fmt) as [|b bs].
  - injection Hfmt as <-. unfold body_default. rewrite Hnb.
    split; [reflexivity|]. split; [now split | discriminate].
  - destruct (body_from_reference_inv _ _ _ Hfmt)
      as (run & Hruns & Hrun & Halign & Hstyle).
    split; [exact Hstyle|]. split; [discriminate|].
    intros p0 rest Heq. injection Heq as <- <-.
    exists run. split; [exact Hruns|].
    destruct (apply_first_font_props_kept _ _ _ Hrun) as [Ht _].
    split; [exact Ht|]. split; [exact Halign|].
    apply apply_first_font_props_inv in Hrun. split.
    + intros fp more Hfp. rewrite Hfp in Hrun.
      split; [now apply apply_font_props_carries in Hrun
             | now apply apply_font_props_only in Hrun].
    + intros Hfp. now rewrite Hfp in Hrun.
Qed.

End FirstSample.

(** ** Document-wide layout *)


(** A margin that is present and zero leaves the section as the template
    has it: the guard is the truth value of the number. *)
Lemma margin_set_zero (store : Z -> outcome Z) (x : Q) (old new : Z) :
  float_truthy x = false -> margin_set store (Some x) old new -> new = old.
Proof. unfold margin_set. now intros ->. Qed.




Section Layout.

Variable template_styles : list Style.
Variable template_sections : list Section_.

(** The sections of a synthesized document are those of the template, each
    with its margins set from the profile. *)
Lemma synthesized_sections
    (target_doc : Document) (fmt : Formatting) (client : OpenAI)
    (doc : Document) (errors : list string) :
  apply_formatting_to_docx template_styles template_sections
    target_doc fmt client = Returns (Some doc, errors) ->
  match margins (overall_style fmt) with
  | Some m => Forall2 (fun old new => set_margins m old = Returns new)
                      template_sections (doc_sections doc)
  | None => doc_sections doc = template_sections
  end.
Proof.
  intros H.
  apply synthesize_inv in H as (_ & c & nd & _ & Hnd & _ & _ & _ & ->).
  now apply set_document_properties_inv in Hnd as (_ & _ & _ & Hsec).
Qed.

(** The synthesized document is new and holds text only: its styles are the
    template's, it has no table, as many sections as the template, and one
    paragraph per non-blank paragraph of the target; each paragraph has
    exactly one run, whose text is not blank and which is never
    underlined. *)
Theorem synthesized_document_shape
    (target_doc : Document) (fmt : Formatting) (client : OpenAI)
    (doc : Document) (errors : list string) :
  apply_formatting_to_docx template_styles template_sections
    target_doc fmt client = Returns (Some doc, errors) ->
  doc_styles doc = template_styles /\
  doc_tables doc = [] /\
  List.length (doc_sections doc) = List.length template_sections /\
  List.length (doc_paragraphs doc) =
  List.length (filter (fun para => non_blank (para_text para))
                      (doc_paragraphs target_doc)) /\
  forall p, In p (doc_paragraphs doc) ->
            exists run, para_runs p = [run] /\
                        non_blank (run_text run) = true /\
                        run_underline run = None.
Proof.
  intros H. pose proof (synthesized_sections _ _ _ _ _ H) as Hsec.
  apply synthesize_inv in H as (_ & c & nd & _ & _ & Hps & Hst & Ht & _).
  split; [exact Hst|]. split; [exact Ht|]. split; [|split].
  - destruct (margins (overall_style fmt)).
    + symmetry. eapply Forall2_length, Hsec.
    + now rewrite Hsec.
  - rewrite <- (Forall2_length Hps). unfold classify_paragraphs.
    rewrite classify_from_length. unfold target_content.
    now rewrite length_map.
  - intros p Hin.
    destruct (Forall2_in_r _ _ _ Hps p Hin) as (item & Hitem & Hfmt).
    pose proof (classified_non_blank c target_doc item Hitem) as Hnb.
    destruct (format_item_one_run _ _ _ _ (non_blank_truthy _ Hnb) Hfmt)
      as (run & Hruns & Htext & Hu).
    exists run. rewrite Htext. now repeat split.
Qed.


End Layout.

(** C4 at a margin of 0 inches: the reference [Examples.reference0] has a
    left margin of 0, the profile records 0 inches as present, and the
    section of the synthesized document keeps the left margin of the
    template, 1143000 EMU, where the other three margins are the
    profile's. *)
Theorem zero_margin_is_left_at_template_default :
  m_left (match margins (overall_style Examples.profile0) with
          | Some m => m
          | None => no_margins
          end) = Some (inches 0) /\
  Inches (inches 0) = 0 /\
  exists doc,
    apply_formatting_to_docx Examples.styles0 Examples.sections0
      Examples.target0 Examples.profile0 Examples.oracle0
    = Returns (Some doc, []) /\
    doc_sections doc =
    [{| top_margin := 457200; bottom_margin := 457200;
        left_margin := 1143000; right_margin := 685800 |}].
Proof.
  split; [reflexivity|]. split; [reflexivity|].
  eexists. split; reflexivity.
Qed.

(** ** Headings without a usable style *)

Section HeadingFallbacks.

Variable template_styles : list Style.
Variable template_sections : list Section_.

(** Without any heading sample, a heading block of a synthesized document
    is bold and has the style "Heading 1" when the new document has a
    paragraph style of that name; when it has not, the block has no style
    and a size of 16 points. Nothing else is set. *)
Theorem heading_without_sample_is_bold_heading_1
    (target_doc : Document) (fmt : Formatting) (client : OpenAI)
    (classifications : string) (doc : Document) (errors : list string) :
  headings fmt = [] ->
  client (request target_doc) = Content classifications ->
  apply_formatting_to_docx template_styles template_sections
    target_doc fmt client = Returns (Some doc, errors) ->
  forall i item,
    nth_error (classify_paragraphs classifications
                 (target_content target_doc)) i = Some item ->
    type item = "heading" ->
    exists p,
      nth_error (doc_paragraphs doc) i = Some p /\
      para_alignment p = None /\
      (paragraph_style "Heading 1" template_styles = true ->
       para_style p = Some "Heading 1" /\
       para_runs p =
       [{| run_text := text item; run_bold := Some true;
           run_italic := None; run_underline := None;
           run_font_name := None; run_font_size := None;
           run_font_color := None |}]) /\
      (paragraph_style "Heading 1" template_styles = false ->
       para_style p = None /\
       para_runs p =
       [{| run_text := text item; run_bold := Some true;
           run_italic := None; run_underline := None;
           run_font_name := None; run_font_size := Some 203200;
           run_font_color := None |}]).
Proof.
  intros Hh Hc H i item Hi Htype.
  apply synthesize_inv in H as (_ & c & nd & Hc' & _ & Hps & _).
  rewrite Hc in Hc'. injection Hc' as <-.
  destruct (Forall2_nth_error_l _ _ _ Hps i item Hi) as (p & Hp & Hfmt).
  exists p. split; [exact Hp|].
  unfold format_item in Hfmt. rewrite Htype, Hh in Hfmt. simpl in Hfmt.
  rewrite heading_default_cases in Hfmt. injection Hfmt as <-. simpl.
  destruct (paragraph_style "Heading 1" template_styles); simpl;
    repeat split; intros; try discriminate; reflexivity.
Qed.

(** With a heading sample whose style the new document does not have, a
    heading block of a synthesized document falls back to "Heading 1"; when
    the new document has no paragraph style of that name either, the block
    has no style and is bold at 16 points, unless the first run of the
    sample says otherwise. *)
Theorem heading_with_unknown_style_falls_back
    (target_doc : Document) (fmt : Formatting) (client : OpenAI)
    (classifications : string) (h0 : StyleInfo) (rest : list StyleInfo)
    (doc : Document) (errors : list string) :
  headings fmt = h0 :: rest ->
  style_available h0 (new_Document template_styles template_sections)
  = false ->
  client (request target_doc) = Content classifications ->
  apply_formatting_to_docx template_styles template_sections
    target_doc fmt client = Returns (Some doc, errors) ->
  forall i item,
    nth_error (classify_paragraphs classifications
                 (target_content target_doc)) i = Some item ->
    type item = "heading" ->
    exists p run,
      nth_error (doc_paragraphs doc) i = Some p /\
      para_runs p = [run] /\
      run_text run = text item /\
      (forall fp more, font_properties h0 = fp :: more ->
                       carries_font_props fp run) /\
      (paragraph_style "Heading 1" template_styles = true ->
       para_style p = Some "Heading 1" /\
       (font_properties h0 = [] ->
        run_bold run = None /\ run_font_size run = None) /\
       (forall fp more,
           font_properties h0 = fp :: more ->
           (bold fp = None -> run_bold run = None) /\
           (font_size fp = None -> run_font_size run = None))) /\
      (paragraph_style "Heading 1" template_styles = false ->
       para_style p = None /\
       (font_properties h0 = [] ->
        run_bold run = Some true /\ run_font_size run = Some 203200) /\
       (forall fp more,
           font_properties h0 = fp :: more ->
           (bold fp = None -> run_bold run = Some true) /\
           (font_size fp = None -> run_font_size run = Some 203200))).
Proof.
  intros Hh Hav Hc H i item Hi Htype.
  apply synthesize_inv in H as (_ & c & nd & Hc' & _ & Hps & _).
  rewrite Hc in Hc'. injection Hc' as <-.
  destruct (Forall2_nth_error_l _ _ _ Hps i item Hi) as (p & Hp & Hfmt).
  unfold format_item in Hfmt. rewrite Htype, Hh in Hfmt. simpl in Hfmt.
  destruct (heading_from_reference_inv _ _ _ _ Hfmt)
    as (run & Hruns & Hrun & _ & Hstyle).
  unfold heading_base in Hrun. rewrite Hav in Hrun, Hstyle.
  cbn [new_Document doc_styles] in Hrun, Hstyle.
  exists p, run. split; [exact Hp|]. split; [exact Hruns|].
  destruct (apply_first_font_props_kept _ _ _ Hrun) as [Ht _].
  apply apply_first_font_props_inv in Hrun.
  split.
  { rewrite Ht.
    now destruct (paragraph_style "Heading 1" template_styles). }
  split.
  { intros fp more Hfp. rewrite Hfp in Hrun.
    now apply apply_font_props_carries in Hrun. }
  destruct (paragraph_style "Heading 1" template_styles);
    (split; [intros _ | discriminate]) || (split; [discriminate | intros _]);
    (split; [exact Hstyle|]); split.
  - intros Hfp. rewrite Hfp in Hrun. now subst run.
  - intros fp more Hfp. rewrite Hfp in Hrun.
    apply apply_font_props_inv in Hrun as (_ & _ & Hb & _ & _ & Hs & _).
    split; intros Hnone; [now rewrite Hb, Hnone | now rewrite Hs, Hnone].
  - intros Hfp. rewrite Hfp in Hrun. now subst run.
  - intros fp more Hfp. rewrite Hfp in Hrun.
    apply apply_font_props_inv in Hrun as (_ & _ & Hb & _ & _ & Hs & _).
    split; intros Hnone; [now rewrite Hb, Hnone | now rewrite Hs, Hnone].
Qed.

End HeadingFallbacks.

(** ** What synthesis depends on *)

Lemma target_content_of_texts (target_doc : Document) :
  target_content target_doc =
  map (fun t => {| type := "paragraph"; text := t |})
      (filter non_blank (map para_text (doc_paragraphs target_doc))).
Proof.
  unfold target_content.
  induction (doc_paragraphs target_doc) as [|p ps IH]; simpl;
    [reflexivity|].
  destruct (non_blank (para_text p)); simpl; now rewrite IH.
Qed.

Lemma format_item_used (f1 f2 : Formatting) (doc : Document) (item : Item) :
  used_of_profile f1 = used_of_profile f2 ->
  format_item f1 doc item = format_item f2 doc item.
Proof.
  unfold used_of_profile, format_item. intros H.
  assert (Hh : option_map used_of_heading (hd_error (headings f1)) =
               option_map used_of_heading (hd_error (headings f2)))
    by congruence.
  assert (Hp : option_map used_of_paragraph (hd_error (paragraphs f1)) =
               option_map used_of_paragraph (hd_error (paragraphs f2)))
    by congruence.
  clear H.
  destruct (String.eqb (type item) "heading").
  - destruct (headings f1) as [|h1 ?], (headings f2) as [|h2 ?];
      cbn [hd_error option_map] in Hh; try discriminate; [reflexivity|].
    assert (Hu : used_of_heading h1 = used_of_heading h2) by congruence.
    unfold used_of_heading in Hu.
    assert (Ha : alignment h1 = alignment h2) by congruence.
    assert (Hs : style_name h1 = style_name h2) by congruence.
    assert (Hf : option_map used_of_run (hd_error (font_properties h1)) =
                 option_map used_of_run (hd_error (font_properties h2)))
      by congruence.
    unfold heading_from_reference, style_available.
    rewrite Ha, Hs.
    match goal with
    | |- bind ?styled _ = _ => destruct styled as [[style base]|e]
    end; cbn [bind fst snd]; [|reflexivity].
    now rewrite (apply_first_font_props_used h1 h2 _ Hf).
  - destruct (paragraphs f1) as [|p1 ?], (paragraphs f2) as [|p2 ?];
      cbn [hd_error option_map] in Hp; try discriminate; [reflexivity|].
    assert (Hu : used_of_paragraph p1 = used_of_paragraph p2) by congruence.
    unfold used_of_paragraph in Hu.
    assert (Ha : alignment p1 = alignment p2) by congruence.
    assert (Hf : option_map used_of_run (hd_error (font_properties p1)) =
                 option_map used_of_run (hd_error (font_properties p2)))
      by congruence.
    unfold body_from_reference. rewrite Ha.
    now rewrite (apply_first_font_props_used p1 p2 _ Hf).
Qed.

Section Dependence.

Variable template_styles : list Style.
Variable template_sections : list Section_.

(** Of the target document only the texts of the non-blank paragraphs are
    read: two targets with the same such texts give the same request to the
    oracle and the same result, whatever their runs, styles, alignments,
    tables and sections. *)
Theorem synthesis_reads_only_the_texts_of_the_target
    (target1 target2 : Document) (fmt : Formatting) (client : OpenAI) :
  filter non_blank (map para_text (doc_paragraphs target1)) =
  filter non_blank (map para_text (doc_paragraphs target2)) ->
  request target1 = request target2 /\
  apply_formatting_to_docx template_styles template_sections
    target1 fmt client =
  apply_formatting_to_docx template_styles template_sections
    target2 fmt client.
Proof.
  intros H.
  assert (Hc : target_content target1 = target_content target2)
    by (now rewrite !target_content_of_texts, H).
  unfold request, apply_formatting_to_docx. now rewrite Hc.
Qed.

(** Of the profile only the margins, the first heading sample (alignment,
    style name, first run) and the first paragraph sample (alignment, first
    run) are read, and of a run only bold, italic, font name, size and
    colour: two profiles that agree on these give the same result. *)
Theorem synthesis_reads_only_the_first_samples
    (target_doc : Document) (fmt1 fmt2 : Formatting) (client : OpenAI) :
  used_of_profile fmt1 = used_of_profile fmt2 ->
  apply_formatting_to_docx template_styles template_sections
    target_doc fmt1 client =
  apply_formatting_to_docx template_styles template_sections
    target_doc fmt2 client.
Proof.
  intros H. apply synthesize_pointwise.
  - unfold used_of_profile in H. congruence.
  - intros doc item. now apply format_item_used.
Qed.

End Dependence.

(** ** From the reference document to the synthesized document *)

Lemma heading_style_name_truthy (name : string) :
  contains "Heading" name = true -> truthy name = true.
Proof. destruct name; [discriminate | reflexivity]. Qed.

Section Transfer.

Variable template_styles : list Style.
Variable template_sections : list Section_.

(** End to end, for headings: every heading block of a synthesized document
    carries the alignment of the first non-blank heading paragraph of the
    reference, its style when the new document has a style of that name,
    and of its first non-blank run the italic flag and the colour as they
    are, the bold flag when it is set and the font name when it is set and
    not empty. *)
Theorem reference_heading_look_is_transferred
    (reference target_doc : Document) (client : OpenAI)
    (classifications : string) (para0 : Paragraph)
    (others : list Paragraph) (doc : Document) (errors : list string) :
  filter heading_paragraph (doc_paragraphs reference) = para0 :: others ->
  client (request target_doc) = Content classifications ->
  apply_formatting_to_docx template_styles template_sections
    target_doc (extract_formatting_from_docx reference) client
  = Returns (Some doc, errors) ->
  forall i item,
    nth_error (classify_paragraphs classifications
                 (target_content target_doc)) i = Some item ->
    type item = "heading" ->
    exists p run,
      nth_error (doc_paragraphs doc) i = Some p /\
      para_runs p = [run] /\
      run_text run = text item /\
      para_alignment p = para_alignment para0 /\
      (has_style (resolved_style_name para0) template_styles = true ->
       para_style p = para_style para0) /\
      match first_recorded_run para0 with
      | Some r0 =>
          run_italic run = run_italic r0 /\
          run_font_color run = run_font_color r0 /\
          (forall b, run_bold r0 = Some b -> run_bold run = Some b) /\
          (forall n, run_font_name r0 = Some n -> truthy n = true ->
                     run_font_name run = Some n)
      | None => run_italic run = None /\ run_font_color run = None
      end.
Proof.
  intros Hfirst Hc H i item Hi Htype.
  apply synthesize_inv in H as (_ & c & nd & Hc' & _ & Hps & _).
  rewrite Hc in Hc'. injection Hc' as <-.
  destruct (Forall2_nth_error_l _ _ _ Hps i item Hi) as (p & Hp & Hfmt).
  assert (Hpara0 : heading_paragraph para0 = true).
  { assert (Hin : In para0 (filter heading_paragraph
                              (doc_paragraphs reference)))
      by (rewrite Hfirst; now left).
    now apply filter_In in Hin. }
  apply andb_true_iff in Hpara0 as [_ Hstyle0].
  unfold is_heading_style in Hstyle0.
  destruct (para_style para0) as [name|] eqn:Hname; [|discriminate].
  set (nd0 := new_Document template_styles template_sections) in *.
  set (h0 := style_info para0).
  unfold format_item in Hfmt.
  rewrite Htype, extracted_headings, Hfirst in Hfmt. simpl in Hfmt.
  fold h0 in Hfmt.
  destruct (heading_from_reference_inv _ _ _ _ Hfmt)
    as (run & Hruns & Hrun & Halign & Hstyle).
  destruct (heading_base_kept nd0 h0 (text item))
    as (Hbt & _ & Hbi & Hbc & Hbn & _).
  exists p, run. split; [exact Hp|]. split; [exact Hruns|].
  destruct (apply_first_font_props_kept _ _ _ Hrun) as [Ht _].
  split; [now rewrite Ht|]. split; [exact Halign|].
  split.
  - unfold resolved_style_name. rewrite Hname. intros Hhas.
    rewrite Hstyle. unfold style_available, h0, style_info; simpl.
    rewrite Hname.
    now rewrite (heading_style_name_truthy name Hstyle0), Hhas.
  - apply apply_first_font_props_inv in Hrun.
    unfold first_recorded_run.
    change (font_properties h0)
      with (map run_props (filter (fun run => non_blank (run_text run))
                                  (para_runs para0))) in Hrun.
    destruct (filter (fun run => non_blank (run_text run)) (para_runs para0))
      as [|r0 rs]; cbn [map hd_error] in *.
    + subst run. now split.
    + apply apply_font_props_inv in Hrun
        as (_ & _ & Hb & Hi' & Hn & _ & Hcol).
      rewrite Hi', Hcol, Hbi, Hbc.
      unfold run_props in Hb, Hn |- *.
      cbn [bold italic font_name color] in Hb, Hn |- *.
      split; [now destruct (run_italic r0)|].
      split; [now destruct (run_font_color r0)|].
      split; [intros b Hrb; now rewrite Hb, Hrb|].
      intros n Hrn Htn. now rewrite Hn, Hrn, Htn.
Qed.

(** End to end, for body blocks: every body block of a synthesized document
    carries the alignment of the first non-blank paragraph of the reference
    that is not a heading, and of its first non-blank run the bold flag, the
    italic flag and the colour as they are, and the font name unless it is
    empty; the style of that paragraph is not carried over. *)
Theorem reference_body_look_is_transferred
    (reference target_doc : Document) (client : OpenAI)
    (classifications : string) (para0 : Paragraph)
    (others : list Paragraph) (doc : Document) (errors : list string) :
  filter body_paragraph (doc_paragraphs reference) = para0 :: others ->
  client (request target_doc) = Content classifications ->
  apply_formatting_to_docx template_styles template_sections
    target_doc (extract_formatting_from_docx reference) client
  = Returns (Some doc, errors) ->
  forall i item,
    nth_error (classify_paragraphs classifications
                 (target_content target_doc)) i = Some item ->
    type item = "body" ->
    exists p run,
      nth_error (doc_paragraphs doc) i = Some p /\
      para_runs p = [run] /\
      run_text run = text item /\
      para_style p = None /\
      para_alignment p = para_alignment para0 /\
      match first_recorded_run para0 with
      | Some r0 =>
          run_bold run = run_bold r0 /\
          run_italic run = run_italic r0 /\
          run_font_color run = run_font_color r0 /\
          (forall n, run_font_name r0 = Some n -> truthy n = true ->
                     run_font_name run = Some n) /\
          (run_font_name r0 = None -> run_font_name run = None)
      | None => run = add_run (text item)
      end.
Proof.
  intros Hfirst Hc H i item Hi Htype.
  apply synthesize_inv in H as (_ & c & nd & Hc' & _ & Hps & _).
  rewrite Hc in Hc'. injection Hc' as <-.
  destruct (Forall2_nth_error_l _ _ _ Hps i item Hi) as (p & Hp & Hfmt).
  set (h0 := style_info para0).
  unfold format_item in Hfmt.
  rewrite Htype, extracted_paragraphs, Hfirst in Hfmt. simpl in Hfmt.
  fold h0 in Hfmt.
  destruct (body_from_reference_inv _ _ _ Hfmt)
    as (run & Hruns & Hrun & Halign & Hstyle).
  exists p, run. split; [exact Hp|]. split; [exact Hruns|].
  destruct (apply_first_font_props_kept _ _ _ Hrun) as [Ht _].
  split; [exact Ht|]. split; [exact Hstyle|]. split; [exact Halign|].
  apply apply_first_font_props_inv in Hrun.
  unfold first_recorded_run.
  change (font_properties h0)
    with (map run_props (filter (fun run => non_blank (run_text run))
                                (para_runs para0))) in Hrun.
  destruct (filter (fun run => non_blank (run_text run)) (para_runs para0))
    as [|r0 rs]; cbn [map hd_error] in *; [exact Hrun|].
  apply apply_font_props_inv in Hrun as (_ & _ & Hb & Hi' & Hn & _ & Hcol).
  rewrite Hb, Hi', Hcol.
  unfold run_props in Hn |- *.
  cbn [bold italic font_name color add_run run_bold run_italic
         run_font_color run_font_name] in Hn |- *.
  split; [now destruct (run_bold r0)|].
  split; [now destruct (run_italic r0)|].
  split; [now destruct (run_font_color r0)|].
  split; [intros n Hrn Htn; now rewrite Hn, Hrn, Htn|].
  intros Hrn. now rewrite Hn, Hrn.
Qed.

End Transfer.

(** ** The page *)

Section Page.

Variable template_styles : list Style.
Variable template_sections : list Section_.
Variable File : Type.
Variable load : File -> Document + string.
Variable connect : string -> OpenAI.

(** The three ways the formatting of a pair of documents ends. *)
Lemma format_document_cases
    (reference_doc target_doc : Document) (client : OpenAI) :
  (exists doc,
      apply_formatting_to_docx template_styles template_sections target_doc
        (extract_formatting_from_docx reference_doc) client
      = Returns (Some doc, []) /\
      format_document template_styles template_sections
        reference_doc target_doc client =
      [st_spinner "Extracting formatting from reference document...";
       st_spinner "Applying formatting to target document...";
       st_success "Document formatted successfully!";
       st_download_button "Download Formatted Document" doc
         "formatted_document.docx" docx_mime]) \/
  (exists e,
      apply_formatting_to_docx template_styles template_sections target_doc
        (extract_formatting_from_docx reference_doc) client
      = Returns (None, [("Error using OpenAI API: " ++ e)%string]) /\
      format_document template_styles template_sections
        reference_doc target_doc client =
      [st_spinner "Extracting formatting from reference document...";
       st_spinner "Applying formatting to target document...";
       st_error ("Error using OpenAI API: " ++ e)%string]) \/
  (exists e,
      apply_formatting_to_docx template_styles template_sections target_doc
        (extract_formatting_from_docx reference_doc) client
      = Raises e /\
      format_document template_styles template_sections
        reference_doc target_doc client =
      [st_spinner "Extracting formatting from reference document...";
       st_spinner "Applying formatting to target document...";
       st_error ("An error occurred: " ++ e)%string]).
Proof.
  unfold format_document.
  destruct (apply_formatting_to_docx template_styles template_sections
              target_doc (extract_formatting_from_docx reference_doc) client)
    as [[[doc|] errors]|e] eqn:H.
  - left. apply synthesize_inv in H as (-> & _). exists doc. now split.
  - right; left.
    unfold apply_formatting_to_docx in H.
    apply bind_returns in H as (nd & _ & H).
    destruct (client _) as [c|e'].
    + destruct (append_all _ _ nd) as [out|e'']; [discriminate|].
      injection H as <-. exists e''. now split.
    + injection H as <-. exists e'. now split.
  - right; right. exists e. now split.
Qed.

(** A run of the page ends in one of four ways: it asks for the inputs, it
    reports one error, it shows nothing, or it announces success and offers
    one download. An error never comes with a success or a download, and a
    download never comes without the success. *)
Theorem page_outcomes_are_exclusive
    (api_key : string) (reference_file target_file : option File)
    (button : bool) :
  let page := main template_styles template_sections File load connect
                api_key reference_file target_file button in
  let counts := (List.length (infos_of page), List.length (errors_of page),
                 List.length (successes_of page),
                 List.length (downloads_of page)) in
  counts = (1, 0, 0, 0)%nat \/ counts = (0, 1, 0, 0)%nat \/
  counts = (0, 0, 0, 0)%nat \/ counts = (0, 0, 1, 1)%nat.
Proof.
  unfold main.
  destruct reference_file as [rf|], target_file as [tf|];
    try (left; reflexivity).
  destruct (truthy api_key); [|left; reflexivity].
  destruct (load rf) as [reference_doc|e]; [|right; left; reflexivity].
  destruct (load tf) as [target_doc|e]; [|right; left; reflexivity].
  destruct button; [|right; right; left; reflexivity].
  destruct (format_document_cases reference_doc target_doc (connect api_key))
    as [(doc & _ & ->) | [(e & _ & ->) | (e & _ & ->)]].
  - right; right; right. reflexivity.
  - right; left. reflexivity.
  - right; left. reflexivity.
Qed.

(** The page asks for the inputs, and does nothing else, exactly when the
    key is empty or one of the two files is missing. *)
Theorem page_asks_for_missing_inputs
    (api_key : string) (reference_file target_file : option File)
    (button : bool) :
  let page := main template_styles template_sections File load connect
                api_key reference_file target_file button in
  (api_key = "" \/ reference_file = None \/ target_file = None) <->
  page = page_header ++
         [st_info "Please provide your OpenAI API key and upload both documents."].
Proof.
  unfold main. split.
  - intros [-> | [-> | ->]].
    + destruct reference_file, target_file; reflexivity.
    + reflexivity.
    + destruct reference_file; reflexivity.
  - destruct reference_file as [rf|]; [|auto].
    destruct target_file as [tf|]; [|auto].
    destruct api_key as [|c k]; [auto|]. cbn [truthy].
    intros H. apply app_inv_head in H. exfalso.
    destruct (load rf) as [reference_doc|e]; [|discriminate].
    destruct (load tf) as [target_doc|e]; [|discriminate].
    destruct button; [|discriminate].
    destruct (format_document_cases reference_doc target_doc
                (connect (String c k)))
      as [(doc & _ & Hf) | [(e & _ & Hf) | (e & _ & Hf)]];
      rewrite Hf in H; discriminate.
Qed.

(** A document offered for download is the whole formatted target: both
    files were read, the button was pressed, the oracle answered, and the
    texts of the document are the texts of the non-blank paragraphs of the
    target, in order. *)
Theorem download_is_the_formatted_target
    (api_key : string) (reference_file target_file : option File)
    (button : bool) (doc : Document) :
  In doc (downloads_of
            (main template_styles template_sections File load connect
               api_key reference_file target_file button)) ->
  exists rf tf reference_doc target_doc classifications,
    reference_file = Some rf /\ target_file = Some tf /\
    load rf = inl reference_doc /\ load tf = inl target_doc /\
    button = true /\
    connect api_key (request target_doc) = Content classifications /\
    apply_formatting_to_docx template_styles template_sections target_doc
      (extract_formatting_from_docx reference_doc) (connect api_key)
    = Returns (Some doc, []) /\
    map para_text (doc_paragraphs doc) =
    filter non_blank (map para_text (doc_paragraphs target_doc)).
Proof.
  unfold main.
  destruct reference_file as [rf|], target_file as [tf|];
    try (simpl; contradiction).
  destruct (truthy api_key); [|simpl; contradiction].
  destruct (load rf) as [reference_doc|e] eqn:Hrf; [|simpl; contradiction].
  destruct (load tf) as [target_doc|e] eqn:Htf; [|simpl; contradiction].
  destruct button; [|simpl; contradiction].
  destruct (format_document_cases reference_doc target_doc (connect api_key))
    as [(d & Hd & ->) | [(e & _ & ->) | (e & _ & ->)]];
    [|simpl; contradiction ..].
  simpl. intros [<- | []].
  destruct (synthesize_inv _ _ _ _ _ _ _ Hd)
    as (_ & c & nd & Hc & _ & Hps & _).
  exists rf, tf, reference_doc, target_doc, c.
  repeat (split; [first [reflexivity | assumption]|]).
  rewrite (formatted_texts _ _ _ _ Hps). unfold classify_paragraphs.
  rewrite classify_from_texts. apply target_content_texts.
Qed.

(** A file that cannot be read is reported as soon as both files and the
    key are there, before the button is pressed; the reference is read
    first, and the target only when the reference could be read. *)
Theorem unreadable_file_is_reported
    (api_key : string) (rf tf : File) (button : bool) (e : string) :
  api_key <> "" ->
  load rf = inr e \/
  (exists reference_doc, load rf = inl reference_doc) /\ load tf = inr e ->
  main template_styles template_sections File load connect
    api_key (Some rf) (Some tf) button =
  page_header ++ [st_error ("An error occurred: " ++ e)%string].
Proof.
  intros Hkey H. unfold main.
  destruct api_key; [contradiction|]. cbn [truthy].
  destruct H as [-> | [(reference_doc & ->) ->]]; reflexivity.
Qed.


End Page.

(** ** The properties on the example documents *)

Lemma heading_blocks_receive_first_heading_sample_witness :
  exists h0 rest doc p,
    headings Examples.profile0 = h0 :: rest /\
    apply_formatting_to_docx Examples.styles0 Examples.sections0
      Examples.target0 Examples.profile0 Examples.oracle0
    = Returns (Some doc, []) /\
    nth_error (doc_paragraphs doc) 0 = Some p /\
    para_style p = Some "Heading 1" /\
    para_alignment p = Some CENTER /\
    heading_styling Examples.styles0 h0 = Returns (styling p).
Proof.
  do 3 eexists.
  assert (H : apply_formatting_to_docx Examples.styles0 Examples.sections0
                Examples.target0 Examples.profile0 Examples.oracle0
              = Returns (Some _, [])) by reflexivity.
  destruct (heading_blocks_receive_first_heading_sample
              Examples.styles0 Examples.sections0 Examples.target0
              Examples.profile0 Examples.oracle0 Examples.answer0
              _ _ _ [] eq_refl eq_refl H) as (Hitems & _).
  destruct (Hitems 0%nat {| type := "heading"; text := "Introduction" |}
              eq_refl eq_refl)
    as (p & run & Hp & _ & _ & Halign & Hstyle & _ & Hstyling).
  exists p. split; [reflexivity|]. split; [exact H|]. split; [exact Hp|].
  split; [exact (Hstyle eq_refl)|]. split; [exact Halign | exact Hstyling].
Defined.

Lemma synthesized_texts_are_target_non_blank_texts_witness :
  exists doc,
    apply_formatting_to_docx Examples.styles0 Examples.sections0
      Examples.target0 Examples.profile0 Examples.oracle0
    = Returns (Some doc, []) /\
    map para_text (doc_paragraphs doc) =
    ["Introduction"; "This report covers the year."].
Proof.
  eexists. split; [reflexivity|].
  exact (synthesized_texts_are_target_non_blank_texts
           Examples.styles0 Examples.sections0 Examples.target0
           Examples.profile0 Examples.oracle0 _ [] eq_refl).
Defined.

(** C5, as stated, fails: the first paragraph sample of
    [Examples.profile0] names the style "Title", the new document has that
    style, the second block is classified as body, and its paragraph has no
    style, where the procedure for headings gives "Title" for the same
    sample. *)
Lemma body_block_ignores_sample_style :
  exists ref_para others doc p q,
    paragraphs Examples.profile0 = ref_para :: others /\
    style_name ref_para = Some "Title" /\
    style_available ref_para
      (new_Document Examples.styles0 Examples.sections0) = true /\
    apply_formatting_to_docx Examples.styles0 Examples.sections0
      Examples.target0 Examples.profile0 Examples.oracle0
    = Returns (Some doc, []) /\
    nth_error (classify_paragraphs Examples.answer0
                 (target_content Examples.target0)) 1 =
    Some {| type := "body"; text := "This report covers the year." |} /\
    nth_error (doc_paragraphs doc) 1 = Some p /\
    para_style p = None /\
    heading_from_reference
      (new_Document Examples.styles0 Examples.sections0)
      ref_para "This report covers the year." = Returns q /\
    para_style q = Some "Title".
Proof.
  do 5 eexists. repeat (split; [reflexivity|]). reflexivity.
Qed.

Lemma body_blocks_receive_first_paragraph_sample_without_style_witness :
  (exists doc p,
      apply_formatting_to_docx Examples.styles0 Examples.sections0
        Examples.target0 Examples.profile0 Examples.oracle0
      = Returns (Some doc, []) /\
      nth_error (doc_paragraphs doc) 1 = Some p /\
      para_text p = "This report covers the year." /\
      para_style p = None) /\
  (exists doc p,
      apply_formatting_to_docx Examples.styles0 Examples.sections0
        Examples.target0 Examples.profile_bad_color Examples.oracle0
      = Returns (Some doc, []) /\
      nth_error (doc_paragraphs doc) 1 = Some p /\
      para_alignment p = None /\
      para_runs p = [add_run "This report covers the year."]).
Proof.
  split.
  - eexists.
    assert (H : apply_formatting_to_docx Examples.styles0 Examples.sections0
                  Examples.target0 Examples.profile0 Examples.oracle0
                = Returns (Some _, [])) by reflexivity.
    destruct (body_blocks_receive_first_paragraph_sample_without_style
                Examples.styles0 Examples.sections0 Examples.target0
                Examples.profile0 Examples.oracle0 Examples.answer0
                _ [] eq_refl H 1%nat
                {| type := "body"; text := "This report covers the year." |}
                eq_refl)
      as (p & Hp & Htext & Hstyle & _).
    { discriminate. }
    exists p. repeat split; assumption.
  - eexists.
    assert (H : apply_formatting_to_docx Examples.styles0 Examples.sections0
                  Examples.target0 Examples.profile_bad_color
                  Examples.oracle0
                = Returns (Some _, [])) by reflexivity.
    destruct (body_blocks_receive_first_paragraph_sample_without_style
                Examples.styles0 Examples.sections0 Examples.target0
                Examples.profile_bad_color Examples.oracle0 Examples.answer0
                _ [] eq_refl H 1%nat
                {| type := "body"; text := "This report covers the year." |}
                eq_refl)
      as (p & Hp & _ & _ & Hplain & _).
    { discriminate. }
    destruct (Hplain eq_refl) as [Halign Hruns].
    exists p. repeat split; assumption.
Defined.

Lemma oracle_failure_yields_no_document_witness :
  apply_formatting_to_docx Examples.styles0 Examples.sections0
    Examples.target0 Examples.profile0 Examples.oracle_down =
  Returns (None, ["Error using OpenAI API: 401 Unauthorized"]).
Proof.
  eapply (proj1 (oracle_failure_yields_no_document
                   Examples.styles0 Examples.sections0 Examples.target0
                   Examples.profile0 Examples.oracle_down)
                "401 Unauthorized");
    reflexivity.
Defined.

(** C7, as stated, fails: the first heading sample of
    [Examples.profile_bad_color] has a colour that is not an [RGBColor];
    synthesis returns the whole document without an error, and the run of
    the heading block is left with an explicit black, not without a
    colour. *)
Lemma refused_color_leaves_the_run_black :
  exists doc p run,
    apply_formatting_to_docx Examples.styles0 Examples.sections0
      Examples.target0 Examples.profile_bad_color Examples.oracle0
    = Returns (Some doc, []) /\
    nth_error (doc_paragraphs doc) 0 = Some p /\
    para_runs p = [run] /\
    run_text run = "Introduction" /\
    run_font_color run = Some black /\
    run_font_color run <> None.
Proof.
  do 3 eexists. repeat (split; [reflexivity|]).
  vm_compute. discriminate.
Qed.

Lemma incompatible_color_is_skipped_silently_witness :
  exists doc doc',
    apply_formatting_to_docx Examples.styles0 Examples.sections0
      Examples.target0 Examples.profile_bad_color Examples.oracle0
    = Returns (Some doc, []) /\
    apply_formatting_to_docx Examples.styles0 Examples.sections0
      Examples.target0
      (without_refused_colors Examples.profile_bad_color) Examples.oracle0
    = Returns (Some doc', []) /\
    doc <> doc' /\
    without_colors doc = without_colors doc' /\
    List.length (doc_paragraphs doc) = 2%nat.
Proof.
  destruct (proj1 (proj2 (incompatible_color_is_skipped_silently
                            Examples.styles0 Examples.sections0
                            Examples.target0 Examples.profile_bad_color
                            Examples.oracle0))
                  _ [] eq_refl)
    as (doc & Hdoc & Hsame & Htexts).
  exists doc. eexists. split; [exact Hdoc|]. split; [reflexivity|].
  split; [|split; [exact Hsame|]].
  - intros Heq. vm_compute in Hdoc. injection Hdoc as Hdoc.
    rewrite <- Hdoc in Heq. discriminate Heq.
  - rewrite <- (length_map para_text), Htexts. reflexivity.
Defined.

Lemma synthesis_ignores_unused_profile_fields_witness :
  tables Examples.profile0 <> tables Examples.profile0' /\
  default_font (overall_style Examples.profile0) <>
  default_font (overall_style Examples.profile0') /\
  apply_formatting_to_docx Examples.styles0 Examples.sections0
    Examples.target0 Examples.profile0 Examples.oracle0 =
  apply_formatting_to_docx Examples.styles0 Examples.sections0
    Examples.target0 Examples.profile0' Examples.oracle0.
Proof.
  split; [discriminate|]. split; [discriminate|].
  apply synthesis_ignores_unused_profile_fields. reflexivity.
Defined.

Lemma synthesized_document_shape_witness :
  exists doc,
    apply_formatting_to_docx Examples.styles0 Examples.sections0
      Examples.target0 Examples.profile0 Examples.oracle0
    = Returns (Some doc, []) /\
    doc_tables doc = [] /\
    List.length (doc_paragraphs doc) = 2%nat.
Proof.
  eexists. split; [reflexivity|].
  destruct (synthesized_document_shape
              Examples.styles0 Examples.sections0 Examples.target0
              Examples.profile0 Examples.oracle0 _ [] eq_refl)
    as (_ & Ht & _ & Hn & _).
  split; [exact Ht | exact Hn].
Defined.


Lemma heading_without_sample_is_bold_heading_1_witness :
  exists doc p,
    apply_formatting_to_docx Examples.styles0 Examples.sections0
      Examples.target0
      (extract_formatting_from_docx Examples.reference_bare)
      Examples.oracle0 = Returns (Some doc, []) /\
    nth_error (doc_paragraphs doc) 0 = Some p /\
    para_style p = Some "Heading 1" /\
    para_runs p = [set_bold (Some true) (add_run "Introduction")].
Proof.
  eexists.
  assert (H : apply_formatting_to_docx Examples.styles0 Examples.sections0
                Examples.target0
                (extract_formatting_from_docx Examples.reference_bare)
                Examples.oracle0 = Returns (Some _, [])) by reflexivity.
  destruct (heading_without_sample_is_bold_heading_1
              Examples.styles0 Examples.sections0 Examples.target0
              (extract_formatting_from_docx Examples.reference_bare)
              Examples.oracle0 Examples.answer0 _ [] eq_refl eq_refl H
              0%nat {| type := "heading"; text := "Introduction" |}
              eq_refl eq_refl) as (p & Hp & _ & Hyes & _).
  exists p. split; [exact H|]. split; [exact Hp|].
  exact (Hyes eq_refl).
Defined.

Lemma heading_with_unknown_style_falls_back_witness :
  exists doc p run,
    apply_formatting_to_docx [] Examples.sections0
      Examples.target0 Examples.profile0 Examples.oracle0
    = Returns (Some doc, []) /\
    nth_error (doc_paragraphs doc) 0 = Some p /\
    para_style p = None /\
    para_runs p = [run] /\
    run_text run = "Introduction".
Proof.
  eexists.
  assert (H : apply_formatting_to_docx [] Examples.sections0
                Examples.target0 Examples.profile0 Examples.oracle0
              = Returns (Some _, [])) by reflexivity.
  destruct (heading_with_unknown_style_falls_back
              [] Examples.sections0 Examples.target0 Examples.profile0
              Examples.oracle0 Examples.answer0
              (hd (style_info (Examples.plain_para "x"))
                  (headings Examples.profile0))
              (tl (headings Examples.profile0)) _ []
              eq_refl eq_refl eq_refl H
              0%nat {| type := "heading"; text := "Introduction" |}
              eq_refl eq_refl)
    as (p & run & Hp & Hruns & Htext & _ & _ & Hno).
  destruct (Hno eq_refl) as (Hstyle & _).
  exists p, run. split; [exact H|]. split; [exact Hp|].
  split; [exact Hstyle|]. split; [exact Hruns|]. exact Htext.
Defined.

Lemma synthesis_reads_only_the_texts_of_the_target_witness :
  doc_paragraphs Examples.target0 <> doc_paragraphs Uploads.target1 /\
  apply_formatting_to_docx Examples.styles0 Examples.sections0
    Examples.target0 Examples.profile0 Examples.oracle0 =
  apply_formatting_to_docx Examples.styles0 Examples.sections0
    Uploads.target1 Examples.profile0 Examples.oracle0.
Proof.
  split; [discriminate|].
  apply (synthesis_reads_only_the_texts_of_the_target
           Examples.styles0 Examples.sections0
           Examples.target0 Uploads.target1).
  reflexivity.
Defined.

Lemma synthesis_reads_only_the_first_samples_witness :
  List.length (headings Examples.profile0) <>
  List.length (headings Uploads.profile1) /\
  apply_formatting_to_docx Examples.styles0 Examples.sections0
    Examples.target0 Examples.profile0 Examples.oracle0 =
  apply_formatting_to_docx Examples.styles0 Examples.sections0
    Examples.target0 Uploads.profile1 Examples.oracle0.
Proof.
  split; [discriminate|].
  apply synthesis_reads_only_the_first_samples. reflexivity.
Defined.

Lemma reference_heading_look_is_transferred_witness :
  exists doc p run,
    apply_formatting_to_docx Examples.styles0 Examples.sections0
      Examples.target0 (extract_formatting_from_docx Examples.reference0)
      Examples.oracle0 = Returns (Some doc, []) /\
    nth_error (doc_paragraphs doc) 0 = Some p /\
    para_runs p = [run] /\
    para_alignment p = Some CENTER /\
    run_font_color run = Some Examples.blue.
Proof.
  eexists.
  assert (H : apply_formatting_to_docx Examples.styles0 Examples.sections0
                Examples.target0
                (extract_formatting_from_docx Examples.reference0)
                Examples.oracle0 = Returns (Some _, [])) by reflexivity.
  destruct (reference_heading_look_is_transferred
              Examples.styles0 Examples.sections0 Examples.reference0
              Examples.target0 Examples.oracle0 Examples.answer0
              _ _ _ [] eq_refl eq_refl H
              0%nat {| type := "heading"; text := "Introduction" |}
              eq_refl eq_refl)
    as (p & run & Hp & Hruns & _ & Halign & _ & Hrun).
  exists p, run. split; [exact H|]. split; [exact Hp|].
  split; [exact Hruns|]. split; [exact Halign|].
  exact (proj1 (proj2 Hrun)).
Defined.

Lemma reference_body_look_is_transferred_witness :
  exists doc p run,
    apply_formatting_to_docx Examples.styles0 Examples.sections0
      Examples.target0 (extract_formatting_from_docx Examples.reference0)
      Examples.oracle0 = Returns (Some doc, []) /\
    nth_error (doc_paragraphs doc) 1 = Some p /\
    para_runs p = [run] /\
    para_alignment p = Some JUSTIFY /\
    run_bold run = Some false /\
    run_italic run = Some true.
Proof.
  eexists.
  assert (H : apply_formatting_to_docx Examples.styles0 Examples.sections0
                Examples.target0
                (extract_formatting_from_docx Examples.reference0)
                Examples.oracle0 = Returns (Some _, [])) by reflexivity.
  destruct (reference_body_look_is_transferred
              Examples.styles0 Examples.sections0 Examples.reference0
              Examples.target0 Examples.oracle0 Examples.answer0
              _ _ _ [] eq_refl eq_refl H 1%nat
              {| type := "body"; text := "This report covers the year." |}
              eq_refl eq_refl)
    as (p & run & Hp & Hruns & _ & _ & Halign & Hrun).
  exists p, run. split; [exact H|]. split; [exact Hp|].
  split; [exact Hruns|]. split; [exact Halign|].
  split; [exact (proj1 Hrun) | exact (proj1 (proj2 Hrun))].
Defined.

Lemma page_asks_for_missing_inputs_witness :
  main Examples.styles0 Examples.sections0 Uploads.file Uploads.load
    Uploads.connect "sk-valid" (Some Uploads.reference_docx) None true =
  page_header ++
  [st_info "Please provide your OpenAI API key and upload both documents."].
Proof.
  apply (proj1 (page_asks_for_missing_inputs
                  Examples.styles0 Examples.sections0 Uploads.file
                  Uploads.load Uploads.connect "sk-valid"
                  (Some Uploads.reference_docx) None true)).
  right. right. reflexivity.
Defined.

Lemma download_is_the_formatted_target_witness :
  exists doc,
    downloads_of
      (main Examples.styles0 Examples.sections0 Uploads.file Uploads.load
         Uploads.connect "sk-valid" (Some Uploads.reference_docx)
         (Some Uploads.target_docx) true) = [doc] /\
    map para_text (doc_paragraphs doc) =
    ["Introduction"; "This report covers the year."].
Proof.
  eexists. split; [reflexivity|].
  destruct (download_is_the_formatted_target
              Examples.styles0 Examples.sections0 Uploads.file
              Uploads.load Uploads.connect "sk-valid"
              (Some Uploads.reference_docx) (Some Uploads.target_docx)
              true _ (or_introl eq_refl))
    as (rf & tf & rd & td & c & _ & Htf & _ & Hload & _ & _ & _ & Htexts).
  injection Htf as <-. injection Hload as <-. exact Htexts.
Defined.

Lemma unreadable_file_is_reported_witness :
  main Examples.styles0 Examples.sections0 Uploads.file Uploads.load
    Uploads.connect "sk-valid" (Some Uploads.reference_docx)
    (Some Uploads.broken_docx) false =
  page_header ++ [st_error "An error occurred: File is not a zip file"].
Proof.
  apply (unreadable_file_is_reported
           Examples.styles0 Examples.sections0 Uploads.file Uploads.load
           Uploads.connect "sk-valid" Uploads.reference_docx
           Uploads.broken_docx false "File is not a zip file").
  - discriminate.
  - right. split; [eexists; reflexivity | reflexivity].
Defined.

